(** * Slooze PDF documentation generator: a shallow embedding

    The development follows [generate_slooze_pdf.py].  The renderer class
    [SloozePDF] and the function [create_slooze_documentation] are
    translated method by method into a state-and-exception monad.  The
    drawing surface they call (the [FPDF] base class of the [fpdf2]
    package) is not part of the repository; [Module Surface] gives the
    part of its documented behaviour that the script observes: the page
    counter, the cursor, the graphics state, automatic page breaks and the
    calls to the [header] and [footer] hooks.  Lengths are millimetres and
    are kept as exact rationals. *)

From Stdlib Require Import String Ascii List ZArith QArith Lqa Lia Bool.
From Stdlib Require Import DecimalString.
Import ListNotations.

Local Open Scope string_scope.
Local Open Scope Z_scope.

(** ** Python values used by the script *)

Module Py.

(** [sep in s] for a one-character separator. *)
Fixpoint contains (sep : ascii) (s : string) : bool :=
  match s with
  | EmptyString => false
  | String c r => if Ascii.eqb c sep then true else contains sep r
  end.

(** The two halves of [s] around the first occurrence of [sep]. *)
Fixpoint partition (sep : ascii) (s : string) : option (string * string) :=
  match s with
  | EmptyString => None
  | String c r =>
      if Ascii.eqb c sep then Some (EmptyString, r)
      else match partition sep r with
           | Some (a, b) => Some (String c a, b)
           | None => None
           end
  end.

(** [s.split(sep, 1)]: at most one split, at the leftmost separator. *)
Definition split1 (sep : ascii) (s : string) : list string :=
  match partition sep s with
  | Some (a, b) => [a; b]
  | None => [s]
  end.

(** Number of occurrences of a character. *)
Fixpoint count (sep : ascii) (s : string) : nat :=
  match s with
  | EmptyString => O
  | String c r => ((if Ascii.eqb c sep then 1 else 0) + count sep r)%nat
  end.

(** [s.startswith(p)]. *)
Definition startswith (p s : string) : bool := String.prefix p s.

(** [s.strip()] for the blank character. *)
Fixpoint lstrip (s : string) : string :=
  match s with
  | String " " r => lstrip r
  | _ => s
  end.

Fixpoint rstrip (s : string) : string :=
  match s with
  | EmptyString => EmptyString
  | String c r =>
      match rstrip r with
      | EmptyString => if Ascii.eqb c " " then EmptyString else String c EmptyString
      | r' => String c r'
      end
  end.

Definition strip (s : string) : string := rstrip (lstrip s).

(** [s * n]. *)
Fixpoint repeat_str (s : string) (n : nat) : string :=
  match n with
  | O => EmptyString
  | S k => s ++ repeat_str s k
  end.

(** [str(n)] for an integer. *)
Definition str_nat (n : nat) : string := NilZero.string_of_uint (Nat.to_uint n).
Definition str_Z (z : Z) : string := NilZero.string_of_int (Z.to_int z).

(** Zero-padded decimal of width two and four ([%m], [%d], [%H], [%Y]). *)
Definition pad (width : nat) (n : nat) : string :=
  let s := str_nat n in
  repeat_str "0" (width - String.length s) ++ s.

(** A table cell: the script passes strings, [str(cell)] admits integers. *)
Inductive value :=
| VStr (s : string)
| VInt (z : Z).

Definition str (v : value) : string :=
  match v with
  | VStr s => s
  | VInt z => str_Z z
  end.

(** [enumerate(l, start)]. *)
Fixpoint enumerate {A : Type} (start : nat) (l : list A) : list (nat * A) :=
  match l with
  | [] => []
  | a :: r => (start, a) :: enumerate (S start) r
  end.

(** The exceptions that occur in the script. *)
Inductive exn :=
| IndexError
| ImportError (module : string)
| TypeError
| SystemExit (code : Z)
| RecursionError
| OSError
| FPDFException (msg : string).

End Py.

(** ** State and exceptions *)

Module Eff.

(** A call either returns a value or raises; the mutated state survives
    in both cases, as it does for a Python object. *)
Inductive outcome (S A : Type) :=
| Ok (a : A) (s : S)
| Raise (e : Py.exn) (s : S).

Arguments Ok {S A} a s.
Arguments Raise {S A} e s.

Definition M (S A : Type) : Type := S -> outcome S A.

Definition ret {S A} (a : A) : M S A := fun s => Ok a s.

Definition bind {S A B} (m : M S A) (k : A -> M S B) : M S B :=
  fun s => match m s with
           | Ok a s' => k a s'
           | Raise e s' => Raise e s'
           end.

Definition raise {S A} (e : Py.exn) : M S A := fun s => Raise e s.
Definition get {S} : M S S := fun s => Ok s s.
Definition gets {S A} (f : S -> A) : M S A := fun s => Ok (f s) s.
Definition modify {S} (f : S -> S) : M S unit := fun s => Ok tt (f s).

(** [try: m except E: h], where [catches] selects the exceptions [E]. *)
Definition try_except {S A} (m : M S A) (catches : Py.exn -> bool) (h : M S A)
  : M S A :=
  fun s => match m s with
           | Ok a s' => Ok a s'
           | Raise e s' => if catches e then h s' else Raise e s'
           end.

(** [for a in l: body a]. *)
Fixpoint for_each {S A} (l : list A) (body : A -> M S unit) : M S unit :=
  match l with
  | [] => ret tt
  | a :: r => bind (body a) (fun _ => for_each r body)
  end.

(** [l[i]] for a non-negative index. *)
Definition index {S A} (l : list A) (i : nat) : M S A :=
  match nth_error l i with
  | Some a => ret a
  | None => raise Py.IndexError
  end.

(** The state reached, whether the call returned or raised. *)
Definition final {S A} (o : outcome S A) : S :=
  match o with
  | Ok _ s => s
  | Raise _ s => s
  end.

Definition returned {S A} (o : outcome S A) : bool :=
  match o with
  | Ok _ _ => true
  | Raise _ _ => false
  end.

End Eff.

Import Eff.

Declare Scope eff_scope.
Delimit Scope eff_scope with eff.
Notation "x <- c1 ;; c2" := (bind c1 (fun x => c2))
  (at level 61, c1 at next level, right associativity) : eff_scope.
Notation "c1 ;; c2" := (bind c1 (fun _ => c2))
  (at level 61, right associativity) : eff_scope.
Local Open Scope eff_scope.

(** ** The drawing surface *)

Module Surface.

Local Open Scope Q_scope.

Definition rgb : Type := (Z * Z * Z)%type.

(** Font styles [''], ['B'] and ['I']. *)
Inductive font_style := Regular | Bold | Italic.

Inductive align := AlignL | AlignC | AlignR | AlignJ.

Inductive rect_style := StyleD | StyleF.

Record font := mkFont { family : string; style : font_style; size_pt : Z }.

(** Height of a line of text in millimetres: the point size over the scale
    factor 72 / 25.4. *)
Definition font_height (f : font) : Q := inject_Z (size_pt f) * (127 # 360).

(** Which code issued a drawing call: the page body, or one of the two
    hooks that [add_page] and [output] run. *)
Inductive origin := Body | Header | Footer.

(** What reaches the page.  A [Text] is one [cell]; a [Para] is one
    [multi_cell], with the number of lines it was broken into. *)
Inductive prim :=
| Text (x y w h : Q) (txt : string) (f : font) (color : rgb)
       (border : bool) (fill : option rgb) (a : align)
| Para (x y w h : Q) (txt : string) (lines : nat) (f : font) (color : rgb)
       (fill : option rgb)
| Line (x1 y1 x2 y2 : Q) (color : rgb) (width : Q)
| Rect (x y w h : Q) (s : rect_style) (color : rgb).

Record entry := mkEntry { e_page : nat; e_origin : origin; e_prim : prim }.

(** The graphics state that [add_page] saves and restores around the hooks. *)
Record gstate := mkGstate {
  cur_font : font;
  text_color : rgb;
  draw_color : rgb;
  fill_color : rgb;
  line_width : Q
}.

Record pdf := mkPdf {
  page : nat;
  x : Q;
  y : Q;
  lasth : Q;
  gs : gstate;
  auto_page_break : bool;
  page_break_trigger : Q;
  section : origin;
  canvas : list entry
}.

Definition with_page v (s : pdf) :=
  mkPdf v (x s) (y s) (lasth s) (gs s) (auto_page_break s)
        (page_break_trigger s) (section s) (canvas s).
Definition with_x v (s : pdf) :=
  mkPdf (page s) v (y s) (lasth s) (gs s) (auto_page_break s)
        (page_break_trigger s) (section s) (canvas s).
Definition with_y v (s : pdf) :=
  mkPdf (page s) (x s) v (lasth s) (gs s) (auto_page_break s)
        (page_break_trigger s) (section s) (canvas s).
Definition with_lasth v (s : pdf) :=
  mkPdf (page s) (x s) (y s) v (gs s) (auto_page_break s)
        (page_break_trigger s) (section s) (canvas s).
Definition with_gs v (s : pdf) :=
  mkPdf (page s) (x s) (y s) (lasth s) v (auto_page_break s)
        (page_break_trigger s) (section s) (canvas s).
Definition with_break a t (s : pdf) :=
  mkPdf (page s) (x s) (y s) (lasth s) (gs s) a t (section s) (canvas s).
Definition with_section v (s : pdf) :=
  mkPdf (page s) (x s) (y s) (lasth s) (gs s) (auto_page_break s)
        (page_break_trigger s) v (canvas s).
Definition with_canvas v (s : pdf) :=
  mkPdf (page s) (x s) (y s) (lasth s) (gs s) (auto_page_break s)
        (page_break_trigger s) (section s) v.

Definition with_font v (g : gstate) :=
  mkGstate v (text_color g) (draw_color g) (fill_color g) (line_width g).
Definition with_text_color v (g : gstate) :=
  mkGstate (cur_font g) v (draw_color g) (fill_color g) (line_width g).
Definition with_draw_color v (g : gstate) :=
  mkGstate (cur_font g) (text_color g) v (fill_color g) (line_width g).
Definition with_fill_color v (g : gstate) :=
  mkGstate (cur_font g) (text_color g) (draw_color g) v (line_width g).
Definition with_line_width v (g : gstate) :=
  mkGstate (cur_font g) (text_color g) (draw_color g) (fill_color g) v.

Definition Qltb (a b : Q) : bool := negb (Qle_bool b a).

(** A character that needs room on a line: any but a blank and a line
    feed, which a line break swallows, and a carriage return, which is
    dropped from the text. *)
Definition inked (c : ascii) : bool :=
  negb (Ascii.eqb c " " || Ascii.eqb c (ascii_of_nat 10)
        || Ascii.eqb c (ascii_of_nat 13)).

Definition has_ink (s : string) : bool := existsb inked (list_ascii_of_string s).

(** The margin kept clear on either side of the text of a cell: a tenth
    of the default page margin of one centimetre. *)
Definition c_margin : Q := 1.

(** A text cannot be broken into lines of a width [w] when it has a
    character to place and no width is left between the two cell
    margins, the glyphs of a font having positive widths: the library
    then raises [no_space].  It does so as well for a glyph that is wider
    than the width that is left, which is for the metrics of the font to
    say; where a paragraph of the remaining width is said to be drawn,
    [Spec.glyphs_fit] is asked of its text. *)
Definition no_room (w : Q) (txt : string) : bool :=
  has_ink txt && Qle_bool (w - 2 * c_margin) 0.

Definition no_space : Py.exn :=
  Py.FPDFException "Not enough horizontal space to render a single character".

(** Page size and margins, fixed when the document is created. *)
Record geometry := mkGeometry {
  page_w : Q;
  page_h : Q;
  l_margin : Q;
  t_margin : Q;
  r_margin : Q
}.

(** A4 portrait with the default margins of one centimetre. *)
Definition a4 : geometry := mkGeometry 210 297 10 10 10.

Section Calls.

Variable geo : geometry.

(** Text metrics of the font tables: the width of a string
    ([get_string_width]) and the number of lines into which a paragraph of
    a given width is broken. *)
Variable string_width : font -> string -> Q.
Variable line_count : font -> Q -> string -> nat.

(** [FPDF()]: no page yet, Helvetica 12 is not selected until [set_font],
    black colours, automatic page break with a margin of two centimetres. *)
Definition new : pdf :=
  mkPdf 0 (l_margin geo) (t_margin geo) 0
        (mkGstate (mkFont "" Regular 12) (0, 0, 0)%Z (0, 0, 0)%Z (0, 0, 0)%Z (1 # 5))
        true (page_h geo - 20) Body [].

Definition page_no : M pdf nat := gets page.
Definition get_y : M pdf Q := gets y.

Definition get_string_width (s : string) : M pdf Q :=
  gets (fun st => string_width (cur_font (gs st)) s).

Definition set_font (fam : string) (sty : font_style) (size : Z) : M pdf unit :=
  modify (fun st => with_gs (with_font (mkFont fam sty size) (gs st)) st).

Definition set_text_color (r g b : Z) : M pdf unit :=
  modify (fun st => with_gs (with_text_color (r, g, b) (gs st)) st).

Definition set_draw_color (r g b : Z) : M pdf unit :=
  modify (fun st => with_gs (with_draw_color (r, g, b) (gs st)) st).

Definition set_fill_color (r g b : Z) : M pdf unit :=
  modify (fun st => with_gs (with_fill_color (r, g, b) (gs st)) st).

Definition set_line_width (w : Q) : M pdf unit :=
  modify (fun st => with_gs (with_line_width w (gs st)) st).

Definition set_auto_page_break (auto : bool) (margin : Q) : M pdf unit :=
  modify (with_break auto (page_h geo - margin)).

(** [set_y] moves to the left margin; a negative ordinate counts from the
    bottom of the page. *)
Definition set_y (v : Q) : M pdf unit :=
  modify (fun st =>
    with_y (if Qle_bool 0 v then v else page_h geo + v) (with_x (l_margin geo) st)).

Definition set_x (v : Q) : M pdf unit :=
  modify (with_x (if Qle_bool 0 v then v else page_w geo + v)).

Definition set_xy (vx vy : Q) : M pdf unit := set_y vy ;; set_x vx.

(** [ln(h)]: to the left margin and down by [h], by default the height of
    the last cell. *)
Definition ln (h : option Q) : M pdf unit :=
  modify (fun st =>
    with_y (y st + match h with Some v => v | None => lasth st end)
           (with_x (l_margin geo) st)).

(** Drawing needs an open page. *)
Definition check_page : M pdf unit :=
  fun st => if Nat.eqb (page st) 0
            then Raise (Py.FPDFException "No page open, you need to call add_page() first") st
            else Ok tt st.

Definition emit (p : prim) : M pdf unit :=
  modify (fun st => with_canvas (canvas st ++ [mkEntry (page st) (section st) p]) st).

Definition line (x1 y1 x2 y2 : Q) : M pdf unit :=
  check_page ;;
  st <- get ;;
  emit (Line x1 y1 x2 y2 (draw_color (gs st)) (line_width (gs st))).

Definition rect (vx vy w h : Q) (s : rect_style) : M pdf unit :=
  check_page ;;
  st <- get ;;
  emit (Rect vx vy w h s (fill_color (gs st))).

(** A page break is due when the page already has content, the element
    would cross the trigger, and the footer is not being drawn. *)
Definition will_page_break (h : Q) (st : pdf) : bool :=
  Qltb (t_margin geo) (y st)
  && Qltb (page_break_trigger st) (y st + h)
  && match section st with Footer => false | _ => true end
  && auto_page_break st.

(** A width of [0] extends to the right margin. *)
Definition cell_width (w : Q) (st : pdf) : Q :=
  if Qeq_bool w 0 then page_w geo - r_margin geo - x st else w.

(** Drawing one cell at the cursor and moving on: [ln = 0] leaves the
    cursor to the right of the cell, [ln = 1] at the start of the next
    line, [ln = 2] below the cell. *)
Definition place_cell (w h : Q) (txt : string) (border : bool) (ln : Z)
    (a : align) (fill : bool) (st : pdf) : pdf :=
  let w' := cell_width w st in
  let st1 :=
    with_lasth h
      (with_canvas
         (canvas st ++
          [mkEntry (page st) (section st)
             (Text (x st) (y st) w' h txt (cur_font (gs st)) (text_color (gs st))
                   border (if fill then Some (fill_color (gs st)) else None) a)])
         st) in
  if (ln =? 1)%Z then with_y (y st + h) (with_x (l_margin geo) st1)
  else if (ln =? 2)%Z then with_y (y st + h) st1
  else with_x (x st + w') st1.

(** [cell(w, h, text, border, ln, align, fill)], with [brk] the action
    taken when a page break is due.  No [h] means the font height. *)
Definition cell_gen (brk : M pdf unit) (w : Q) (h : option Q) (txt : string)
    (border : bool) (ln : Z) (a : align) (fill : bool) : M pdf unit :=
  check_page ;;
  st <- get ;;
  let h' := match h with Some v => v | None => font_height (cur_font (gs st)) end in
  (if will_page_break h' st then brk else ret tt) ;;
  modify (place_cell w h' txt border ln a fill).

(** The first line of a paragraph of [n] lines, drawn at the cursor. *)
Definition place_para (w h : Q) (txt : string) (n : nat) (fill : bool) (st : pdf)
  : pdf :=
  with_y (y st + h)
    (with_canvas
       (canvas st ++
        [mkEntry (page st) (section st)
           (Para (x st) (y st) w h txt n (cur_font (gs st)) (text_color (gs st))
                 (if fill then Some (fill_color (gs st)) else None))])
       st).

(** The remaining lines of a paragraph: a break check before each, then
    one line height down. *)
Fixpoint advance_lines (brk : M pdf unit) (h : Q) (n : nat) : M pdf unit :=
  match n with
  | O => ret tt
  | S k =>
      st <- get ;;
      (if will_page_break h st then brk else ret tt) ;;
      modify (fun st => with_y (y st + h) st) ;;
      advance_lines brk h k
  end.

(** [multi_cell(w, h, text, fill=fill)]: the text is broken into lines
    before anything is drawn, which fails when there is no room for a
    character; then at least one line is rendered, and afterwards the
    cursor is below the paragraph and to its right. *)
Definition multi_cell_gen (brk : M pdf unit) (w h : Q) (txt : string) (fill : bool)
  : M pdf unit :=
  check_page ;;
  st <- get ;;
  let w' := cell_width w st in
  if no_room w' txt then raise no_space
  else
    let n := Nat.max 1 (line_count (cur_font (gs st)) w' txt) in
    (if will_page_break h st then brk else ret tt) ;;
    modify (place_para w' h txt n fill) ;;
    advance_lines brk h (Nat.pred n) ;;
    modify (with_lasth h) ;;
    modify (fun st => with_x (x st + w') st).

(** *** Pages and the two hooks *)

Variable header footer : M pdf unit.

(** [add_page()]: the footer of the page being left, the new page with the
    cursor at the top left, then the header; the graphics state in force
    before the call is restored after each hook. *)
Definition add_page : M pdf unit :=
  st0 <- get ;;
  (if Nat.ltb 0 (page st0)
   then modify (with_section Footer) ;; footer ;; modify (with_section Body)
   else ret tt) ;;
  modify (fun st =>
    with_gs (gs st0)
      (with_y (t_margin geo) (with_x (l_margin geo) (with_page (S (page st)) st)))) ;;
  modify (with_section Header) ;;
  header ;;
  modify (with_section Body) ;;
  modify (with_gs (gs st0)).

(** The automatic break keeps the abscissa. *)
Definition perform_page_break : M pdf unit :=
  st <- get ;;
  add_page ;;
  modify (with_x (x st)).

Definition cell := cell_gen perform_page_break.
Definition multi_cell := multi_cell_gen perform_page_break.

(** What [output] hands to the file system. *)
Record document := mkDocument { doc_pages : nat; doc_content : list entry }.

(** [output(name)] closes the document: a document without pages gets
    one, and the last page gets its footer. *)
Definition close : M pdf document :=
  st <- get ;;
  (if Nat.eqb (page st) 0 then add_page else ret tt) ;;
  modify (with_section Footer) ;;
  footer ;;
  modify (with_section Body) ;;
  st <- get ;;
  ret (mkDocument (page st) (canvas st)).

End Calls.

End Surface.

(** ** The renderer class [SloozePDF] *)

Module SloozePDF.

Import Surface.
Local Open Scope Q_scope.

Section Renderer.

Variable geo : geometry.
Variable string_width : font -> string -> Q.
Variable line_count : font -> Q -> string -> nat.

(** Inside the hooks a page break is never due: [header] runs with the
    cursor at the top margin and [footer] with the footer flag set.  A
    break there would call [add_page] from within [add_page] without end. *)
Definition hook_cell := cell_gen geo (raise Py.RecursionError).

Definition header : M pdf unit :=
  pg <- page_no ;;
  if Nat.eqb pg 1 then ret tt
  else
    set_font "Arial" Bold 9 ;;
    set_text_color 102 102 102 ;;
    hook_cell 0 (Some 8) "Slooze Data Science Challenge - Technical Documentation"
              false 0 AlignC false ;;
    set_draw_color 200 200 200 ;;
    y1 <- get_y ;;
    y2 <- get_y ;;
    line 15 (y1 + 5) 195 (y2 + 5) ;;
    ln geo (Some 8).

Definition footer : M pdf unit :=
  pg <- page_no ;;
  if Nat.eqb pg 1 then ret tt
  else
    set_y geo (-15) ;;
    set_font "Arial" Italic 8 ;;
    set_text_color 128 128 128 ;;
    pg <- page_no ;;
    hook_cell 0 (Some 10) ("Page " ++ Py.str_nat pg) false 0 AlignC false.

Definition add_page : M pdf unit := Surface.add_page geo header footer.
Definition cell := Surface.cell geo header footer.
Definition multi_cell := Surface.multi_cell geo line_count header footer.
Definition output : M pdf document := Surface.close geo header footer.

Definition chapter_title (title : string) (level : Z) : M pdf unit :=
  if (level =? 1)%Z then
    set_font "Arial" Bold 16 ;;
    set_text_color 26 26 46 ;;
    cell 0 (Some 12) title false 1 AlignL false ;;
    set_draw_color 233 69 96 ;;
    set_line_width (1 # 2) ;;
    y1 <- get_y ;;
    y2 <- get_y ;;
    line 15 y1 195 y2 ;;
    ln geo (Some 5)
  else if (level =? 2)%Z then
    set_font "Arial" Bold 13 ;;
    set_text_color 22 33 62 ;;
    cell 0 (Some 10) title false 1 AlignL false ;;
    ln geo (Some 2)
  else
    set_font "Arial" Bold 11 ;;
    set_text_color 51 51 51 ;;
    cell 0 (Some 8) title false 1 AlignL false ;;
    ln geo (Some 1).

Definition chapter_body (body : string) : M pdf unit :=
  set_font "Arial" Regular 10 ;;
  set_text_color 51 51 51 ;;
  multi_cell 0 6 body false ;;
  ln geo None.

(** [chr(149)], the bullet glyph. *)
Definition bullet : string := String (ascii_of_nat 149) EmptyString.

(** The body of the loop of [bullet_list]. *)
Definition bullet_item (bold_prefix : bool) (item : string) : M pdf unit :=
  if bold_prefix && Py.contains ":" item then
    let parts := Py.split1 ":" item in
    cell 5 None "" false 0 AlignL false ;;
    cell 5 (Some 6) bullet false 0 AlignL false ;;
    set_font "Arial" Bold 10 ;;
    p0 <- index parts 0 ;;
    w <- get_string_width string_width (p0 ++ ": ") ;;
    p0' <- index parts 0 ;;
    cell w (Some 6) (p0' ++ ":") false 0 AlignL false ;;
    set_font "Arial" Regular 10 ;;
    p1 <- index parts 1 ;;
    multi_cell 0 6 p1 false
  else
    cell 5 None "" false 0 AlignL false ;;
    cell 5 (Some 6) bullet false 0 AlignL false ;;
    multi_cell 0 6 item false.

Definition bullet_list (items : list string) (bold_prefix : bool) : M pdf unit :=
  set_font "Arial" Regular 10 ;;
  set_text_color 51 51 51 ;;
  for_each items (bullet_item bold_prefix) ;;
  ln geo (Some 2).

Definition numbered_list (items : list string) : M pdf unit :=
  set_font "Arial" Regular 10 ;;
  set_text_color 51 51 51 ;;
  for_each (Py.enumerate 1 items) (fun '(i, item) =>
    cell 5 None "" false 0 AlignL false ;;
    cell 10 (Some 6) (Py.str_nat i ++ ".") false 0 AlignL false ;;
    multi_cell 0 6 item false) ;;
  ln geo (Some 2).

Definition key_finding_box (title content : string) : M pdf unit :=
  start_y <- get_y ;;
  set_draw_color 233 69 96 ;;
  set_line_width 1 ;;
  line 15 start_y 15 (start_y + 25) ;;
  set_fill_color 250 250 250 ;;
  rect 17 start_y 178 25 StyleF ;;
  set_xy geo 20 (start_y + 3) ;;
  set_font "Arial" Bold 10 ;;
  set_text_color 233 69 96 ;;
  cell 0 (Some 6) title false 1 AlignL false ;;
  set_xy geo 20 (start_y + 10) ;;
  set_font "Arial" Regular 10 ;;
  set_text_color 51 51 51 ;;
  multi_cell 170 5 content false ;;
  set_y geo (start_y + 28).

Definition info_box (title : string) (items : list string) : M pdf unit :=
  set_font "Arial" Bold 11 ;;
  set_text_color 22 33 62 ;;
  cell 0 (Some 8) title false 1 AlignL false ;;
  bullet_list items true.

(** [[40] * len(headers)]. *)
Definition default_col_widths (headers : list string) : list Q :=
  repeat 40 (length headers).

Definition create_table (headers : list string) (data : list (list Py.value))
    (col_widths : option (list Q)) : M pdf unit :=
  let col_widths :=
    match col_widths with
    | None => default_col_widths headers
    | Some ws => ws
    end in
  set_font "Arial" Bold 9 ;;
  set_fill_color 248 249 250 ;;
  set_text_color 51 51 51 ;;
  for_each (Py.enumerate 0 headers) (fun '(i, header) =>
    w <- index col_widths i ;;
    cell w (Some 8) header true 0 AlignL true) ;;
  ln geo None ;;
  set_font "Arial" Regular 9 ;;
  set_fill_color 255 255 255 ;;
  for_each data (fun row =>
    for_each (Py.enumerate 0 row) (fun '(i, c) =>
      w <- index col_widths i ;;
      cell w (Some 7) (Py.str c) true 0 AlignL false) ;;
    ln geo None) ;;
  ln geo (Some 3).

End Renderer.

End SloozePDF.

(** ** The script *)

Module Script.

Import Surface.
Local Open Scope Q_scope.

(** A reading of the clock, as [datetime.now()] returns it. *)
Record datetime := mkDatetime {
  year : nat; month : nat; day : nat; hour : nat; minute : nat; second : nat
}.

(** [%B]: the full month name. *)
Definition month_name (m : nat) : string :=
  match m with
  | 1%nat => "January" | 2%nat => "February" | 3%nat => "March"
  | 4%nat => "April" | 5%nat => "May" | 6%nat => "June"
  | 7%nat => "July" | 8%nat => "August" | 9%nat => "September"
  | 10%nat => "October" | 11%nat => "November" | _ => "December"
  end.

(** [strftime('%B %Y')] and [strftime('%Y-%m-%d %H:%M:%S')]. *)
Definition strftime_B_Y (t : datetime) : string :=
  month_name (month t) ++ " " ++ Py.pad 4 (year t).

Definition strftime_full (t : datetime) : string :=
  Py.pad 4 (year t) ++ "-" ++ Py.pad 2 (month t) ++ "-" ++ Py.pad 2 (day t) ++ " "
  ++ Py.pad 2 (hour t) ++ ":" ++ Py.pad 2 (minute t) ++ ":" ++ Py.pad 2 (second t).

(** What the process can see and change: the installed packages, the
    clock (the reading returned by the n-th call), the command line, the
    working directory, which paths can be written, the two output
    streams and the files written so far. *)
Record world := mkWorld {
  site_packages : list string;
  clock : nat -> datetime;
  ticks : nat;
  argv : list string;
  cwd : string;
  writable : string -> bool;
  stdout : list string;
  stderr : list string;
  written : list (string * document)
}.

Definition with_ticks v (w : world) :=
  mkWorld (site_packages w) (clock w) v (argv w) (cwd w) (writable w)
          (stdout w) (stderr w) (written w).
Definition with_stdout v (w : world) :=
  mkWorld (site_packages w) (clock w) (ticks w) (argv w) (cwd w) (writable w)
          v (stderr w) (written w).
Definition with_stderr v (w : world) :=
  mkWorld (site_packages w) (clock w) (ticks w) (argv w) (cwd w) (writable w)
          (stdout w) v (written w).
Definition with_written v (w : world) :=
  mkWorld (site_packages w) (clock w) (ticks w) (argv w) (cwd w) (writable w)
          (stdout w) (stderr w) v.

(** [datetime] and [os] come with the interpreter; anything else has to
    be installed. *)
Definition importable (w : world) (name : string) : bool :=
  existsb (String.eqb name) ("datetime" :: "os" :: site_packages w).

Definition import_module (name : string) : M world unit :=
  fun w => if importable w name then Ok tt w else Raise (Py.ImportError name) w.

Definition print (s : string) : M world unit :=
  modify (fun w => with_stdout (stdout w ++ [s]) w).

Definition datetime_now : M world datetime :=
  fun w => Ok (clock w (ticks w)) (with_ticks (S (ticks w)) w).

Definition write_file (name : string) (doc : document) : M world unit :=
  fun w => if writable w name
           then Ok tt (with_written (written w ++ [(name, doc)]) w)
           else Raise Py.OSError w.

(** [os.path.abspath] of a path without dot segments. *)
Definition abspath (p : string) : M world string :=
  gets (fun w => if Py.startswith "/" p then p else cwd w ++ "/" ++ p).

(** [exit(code)]. *)
Definition exit {A} (code : Z) : M world A := raise (Py.SystemExit code).

(** Inside [create_slooze_documentation] the local [pdf] object lives next
    to the world. *)
Definition session : Type := (world * pdf)%type.

Definition on_world {A} (m : M world A) : M session A :=
  fun s => match m (fst s) with
           | Ok a w => Ok a (w, snd s)
           | Raise e w => Raise e (w, snd s)
           end.

Definition on_pdf {A} (m : M pdf A) : M session A :=
  fun s => match m (snd s) with
           | Ok a p => Ok a (fst s, p)
           | Raise e p => Raise e (fst s, p)
           end.

(** A function body with a local object: the object is gone on return. *)
Definition with_local {A} (init : pdf) (m : M session A) : M world A :=
  fun w => match m (w, init) with
           | Ok a s => Ok a (fst s)
           | Raise e s => Raise e (fst s)
           end.

(** A table row of strings. *)
Definition row (cells : list string) : list Py.value := map Py.VStr cells.

Definition newline : string := String (ascii_of_nat 10) EmptyString.
Definition dq : string := String (ascii_of_nat 34) EmptyString.

Section Document.

Variable geo : geometry.
Variable string_width : font -> string -> Q.
Variable line_count : font -> Q -> string -> nat.

Local Abbreviation set_auto_page_break := (Surface.set_auto_page_break geo).
Local Abbreviation set_xy := (Surface.set_xy geo).
Local Abbreviation set_y := (Surface.set_y geo).
Local Abbreviation ln := (Surface.ln geo).
Local Abbreviation add_page := (SloozePDF.add_page geo).
Local Abbreviation cell := (SloozePDF.cell geo).
Local Abbreviation multi_cell := (SloozePDF.multi_cell geo line_count).
Local Abbreviation chapter_title := (SloozePDF.chapter_title geo).
Local Abbreviation chapter_body := (SloozePDF.chapter_body geo line_count).
Local Abbreviation bullet_list := (SloozePDF.bullet_list geo string_width line_count).
Local Abbreviation numbered_list := (SloozePDF.numbered_list geo line_count).
Local Abbreviation key_finding_box := (SloozePDF.key_finding_box geo line_count).
Local Abbreviation info_box := (SloozePDF.info_box geo string_width line_count).
Local Abbreviation create_table := (SloozePDF.create_table geo).

(** The body of [create_slooze_documentation], block by block in the
    order of the source. *)

(** The cover page up to its last line. *)
Definition cover_static : M pdf unit :=
  add_page ;;
  set_fill_color 26 26 46 ;;
  rect 0 0 210 297 StyleF ;;
  set_fill_color 233 69 96 ;;
  rect 0 289 210 8 StyleF ;;
  set_xy 65 60 ;;
  set_fill_color 233 69 96 ;;
  rect 65 60 80 10 StyleF ;;
  set_font "Arial" Bold 10 ;;
  set_text_color 255 255 255 ;;
  set_xy 65 63 ;;
  cell 80 (Some 6) "DATA SCIENCE CHALLENGE" false 0 AlignC false ;;
  set_xy 15 100 ;;
  set_font "Arial" Bold 28 ;;
  set_text_color 255 255 255 ;;
  cell 180 (Some 15) "Inventory Optimization &" false 1 AlignC false ;;
  cell 180 (Some 15) "Supply Chain Analysis" false 1 AlignC false ;;
  set_xy 15 145 ;;
  set_font "Arial" Regular 14 ;;
  set_text_color 200 200 200 ;;
  cell 180 (Some 10) "Slooze Take-Home Challenge" false 1 AlignC false ;;
  set_draw_color 233 69 96 ;;
  set_line_width 1 ;;
  line 85 175 125 175 ;;
  set_xy 15 200 ;;
  set_font "Arial" Regular 11 ;;
  set_text_color 180 180 180 ;;
  cell 180 (Some 8) "Technical Documentation" false 1 AlignC false ;;
  cell 180 (Some 8) "Comprehensive Analysis Report" false 1 AlignC false.

(** The last line of the cover is the month and year read from the
    clock. *)
Definition cover : M session unit :=
  on_pdf cover_static ;;
  now <- on_world datetime_now ;;
  on_pdf (cell 180 (Some 8) (strftime_B_Y now) false 1 AlignC false).

Definition toc_items : list (string * Z) :=
  [("1. Executive Summary", 3%Z);
   ("2. Problem Statement & Objectives", 4%Z);
   ("   2.1 Business Context", 4%Z);
   ("   2.2 Core Objectives", 4%Z);
   ("3. Dataset Overview", 5%Z);
   ("4. Methodology", 6%Z);
   ("   4.1 Phase 1: Data Exploration & Cleaning", 6%Z);
   ("   4.2 Phase 2: ABC Analysis", 7%Z);
   ("   4.3 Phase 2.2: Demand Forecasting", 8%Z);
   ("   4.4 Phase 2.3: Reorder Point Analysis", 8%Z);
   ("   4.5 Phase 2.4: Lead Time Analysis", 9%Z);
   ("5. Key Results", 10%Z);
   ("6. Assumptions & Limitations", 12%Z);
   ("7. Business Recommendations", 13%Z);
   ("8. How to Run the Code", 14%Z);
   ("9. Conclusion", 15%Z)].

Definition table_of_contents : M pdf unit :=
  add_page ;;
  chapter_title "Table of Contents" 1 ;;
  set_font "Arial" Regular 11 ;;
  set_text_color 51 51 51 ;;
  for_each toc_items (fun '(item, page) =>
    (if Py.startswith "   " item
     then cell 10 None "" false 0 AlignL false ;; set_font "Arial" Regular 10
     else set_font "Arial" Bold 11) ;;
    cell 150 (Some 7) (Py.strip item) false 0 AlignL false ;;
    cell 0 (Some 7) (Py.str_Z page) false 1 AlignR false).

Definition section_1 : M pdf unit :=
  add_page ;;
  chapter_title "1. Executive Summary" 1 ;;
  chapter_body
      ("This analysis presents a comprehensive inventory optimization "
      ++ "system for Slooze, a retail wine and spirits company operating "
      ++ "across multiple locations. Using 2.37 million purchase records, "
      ++ "1.05 million sales transactions, and inventory data from 2016, we "
      ++ "implemented four core analytical frameworks to transform raw "
      ++ "transactional data into actionable business intelligence.") ;;
  chapter_title "Key Deliverables" 2 ;;
  bullet_list
      [("ABC Analysis: Classified 7,658 products by revenue contribution "
           ++ "using the 80/20 rule");
       ("Demand Forecasting: Built Facebook Prophet time-series models for "
           ++ "top 5 A-Class products");
       ("Reorder Point Analysis: Calculated optimal inventory triggers "
           ++ "with 95% service level safety stock");
       ("Lead Time Analysis: Evaluated 120 vendors across $321.9 million "
           ++ "procurement spend")] true ;;
  key_finding_box "Critical Finding"
      ("80% of revenue comes from only 19.6% of products (A-Class), yet "
      ++ "none of these critical products use Premium suppliers. This "
      ++ "creates a significant supply chain vulnerability that requires "
      ++ "immediate attention.") ;;
  chapter_title "Summary Metrics" 2 ;;
  create_table
      ["Metric"; "Value"]
      [row ["Total Revenue Analyzed"; "$33.1 Million"];
       row ["Unique Products"; "7,658"];
       row ["Vendors Evaluated"; "128"];
       row ["Store Locations"; "79"]]
      (Some [80; 80]).

Definition section_2 : M pdf unit :=
  add_page ;;
  chapter_title "2. Problem Statement & Objectives" 1 ;;
  chapter_title "2.1 Business Context" 2 ;;
  chapter_body
      ("Slooze manages millions of transactions across sales, purchases, "
      ++ "and inventory records spanning 79+ store locations. Traditional "
      ++ "spreadsheet-based analysis is inadequate for this data volume, "
      ++ "creating risks of:") ;;
  bullet_list
      ["Stockouts of high-revenue items leading to lost sales";
       "Excess inventory carrying costs tying up working capital";
       ("Missed optimization opportunities from lack of data-driven "
           ++ "insights");
       "Supplier inefficiencies going undetected"] true ;;
  chapter_title "2.2 Core Objectives" 2 ;;
  create_table
      ["Objective"; "Description"; "Success Metric"]
      [row ["Inventory Optimization"; "Determine ideal stock levels by category"; "Reduced stockouts + carrying costs"];
       row ["Sales & Purchase Insights"; "Identify trends and supplier efficiency"; "Clear product/vendor segmentation"];
       row ["Process Improvement"; "Optimize procurement and stock control"; "Data-driven reorder triggers"]]
      (Some [50; 65; 55]) ;;
  chapter_title "Analytical Tasks Completed" 2 ;;
  numbered_list
      ["ABC Analysis - Product classification by revenue contribution";
       "Demand Forecasting - Time-series prediction using Prophet";
       ("Reorder Point Analysis - Inventory trigger calculations with "
           ++ "safety stock");
       "Lead Time Analysis - Supplier performance evaluation"].

Definition section_3 : M pdf unit :=
  add_page ;;
  chapter_title "3. Dataset Overview" 1 ;;
  chapter_title "Data Sources (6 Files)" 2 ;;
  create_table
      ["File Name"; "Size"; "Records"; "Purpose"]
      [row ["SalesFINAL12312016.csv"; "127.86 MB"; "1,048,575"; "Sales transactions"];
       row ["PurchasesFINAL12312016.csv"; "401.75 MB"; "2,372,474"; "Purchase orders"];
       row ["BegInvFINAL12312016.csv"; "19.31 MB"; "206,529"; "Beginning inventory"];
       row ["EndInvFINAL12312016.csv"; "21.00 MB"; "224,489"; "Ending inventory"];
       row ["InvoicePurchases12312016.csv"; "591 KB"; "5,543"; "Invoice records"];
       row ["2017PurchasePricesDec.csv"; "1.16 MB"; "12,261"; "Price reference"]]
      (Some [55; 30; 30; 55]) ;;
  chapter_title "Data Quality Summary" 2 ;;
  info_box "Dataset Characteristics"
      ["Date Range: January 1 - December 31, 2016 (with February anomaly)";
       "Geography: 79-81 store locations across multiple cities";
       "Products: ~7,658 unique SKUs";
       "Vendors: 128 significant suppliers (>10 purchase orders)";
       "Total Records: 3.87 million rows analyzed"].

Definition section_4 : M pdf unit :=
  add_page ;;
  chapter_title "4. Methodology" 1 ;;
  chapter_title "4.1 Phase 1: Data Exploration & Cleaning" 2 ;;
  chapter_body
      ("The dataset was automatically downloaded using KaggleHub (61.9 MB "
      ++ "compressed). All 6 CSV files were loaded into pandas DataFrames "
      ++ "with appropriate data type optimization for memory efficiency.") ;;
  chapter_title "Data Cleaning Steps" 3 ;;
  numbered_list
      ["Standardized date formats (PODate, ReceivingDate, SalesDate)";
       "Calculated derived metrics (LeadTime_Days, Revenue)";
       "Removed invalid lead times (negative or zero values)";
       "Converted 2,372,474 purchase records to datetime format";
       "Stripped whitespace from string columns";
       "Validated referential integrity across datasets"] ;;
  chapter_title "4.2 Phase 2: ABC Analysis" 2 ;;
  chapter_body
      ("Classify inventory by revenue contribution to prioritize "
      ++ "management attention and allocate resources effectively.") ;;
  chapter_title "Classification Criteria" 3 ;;
  create_table
      ["Class"; "Criteria"; "Priority"]
      [row ["A-Class"; "Top 80% cumulative revenue"; "High"];
       row ["B-Class"; "80-95% cumulative revenue"; "Medium"];
       row ["C-Class"; "Bottom 5% cumulative revenue"; "Low"]]
      (Some [30; 80; 50]) ;;
  chapter_title "4.3 Phase 2.2: Demand Forecasting" 2 ;;
  chapter_body
      ("Implemented Facebook Prophet models with daily and weekly "
      ++ "seasonality, multiplicative seasonality mode, and 14-day forecast "
      ++ "horizon. MAE and RMSE calculated for model validation.") ;;
  chapter_title "4.4 Phase 2.3: Reorder Point Analysis" 2 ;;
  chapter_body
      "ROP = (Average Daily Demand x Lead Time) + Safety Stock" ;;
  chapter_body
      "Where Safety Stock = Z x Standard Deviation x sqrt(Lead Time)" ;;
  create_table
      ["Parameter"; "Value"; "Description"]
      [row ["Service Level"; "95%"; "Z-score = 1.65 (industry standard)"];
       row ["Lead Time"; "7.3-7.6 days"; "Vendor-specific average"];
       row ["Safety Stock"; "Variable"; "Based on demand variability"]]
      (Some [40; 35; 75]) ;;
  chapter_title "4.5 Phase 2.4: Lead Time Analysis" 2 ;;
  create_table
      ["Classification"; "Lead Time"; "Std Dev"; "Risk"]
      [row ["Premium"; "<= 7.7 days"; "<= 2.2 days"; "Low"];
       row ["Fast but Variable"; "<= 7.7 days"; "> 2.2 days"; "Medium"];
       row ["Slow but Steady"; "> 7.7 days"; "<= 2.2 days"; "Low-Medium"];
       row ["High Risk"; "> 7.7 days"; "> 2.2 days"; "High"]]
      (Some [45; 35; 35; 25]).

Definition section_5 : M pdf unit :=
  add_page ;;
  chapter_title "5. Key Results" 1 ;;
  chapter_title "ABC Analysis Results" 2 ;;
  create_table
      ["Category"; "Products"; "% SKUs"; "Revenue"; "% Revenue"]
      [row ["A-Class"; "1,502"; "19.6%"; "$26.51M"; "80.0%"];
       row ["B-Class"; "1,813"; "23.7%"; "$4.97M"; "15.0%"];
       row ["C-Class"; "4,343"; "56.7%"; "$1.66M"; "5.0%"]]
      (Some [25; 30; 25; 35; 30]) ;;
  chapter_title "Top 5 Revenue Products" 2 ;;
  create_table
      ["Rank"; "Product"; "Revenue"; "% of Total"]
      [row ["1"; "Captain Morgan Spiced Rum"; "$444,811"; "1.34%"];
       row ["2"; "Ketel One Vodka"; "$357,759"; "1.08%"];
       row ["3"; "Jack Daniels No 7 Black"; "$344,712"; "1.04%"];
       row ["4"; "Absolut 80 Proof"; "$288,135"; "0.87%"];
       row ["5"; "Tito's Handmade Vodka"; "$275,163"; "0.83%"]]
      (Some [15; 85; 35; 25]) ;;
  chapter_title "Reorder Point Results" 2 ;;
  create_table
      ["Product"; "ROP"; "Current"; "Status"]
      [row ["Captain Morgan"; "5,676"; "16,769"; "Healthy"];
       row ["Ketel One"; "3,616"; "16,770"; "Healthy"];
       row ["Jack Daniels"; "2,620"; "15,047"; "Healthy"];
       row ["Absolut"; "2,978"; "12,268"; "Healthy"];
       row ["Tito's"; "2,811"; "14,018"; "Healthy"]]
      (Some [45; 35; 35; 25]) ;;
  key_finding_box "Inventory Status"
      ("All products are currently healthy with current stock levels 2-4x "
      ++ "above reorder points. No immediate stockout risk detected.") ;;
  chapter_title "Lead Time Analysis Results" 2 ;;
  create_table
      ["Tier"; "Vendors"; "Spend"; "Risk"]
      [row ["Premium"; "26 (21.7%)"; "$50.6M"; "Low"];
       row ["Fast but Variable"; "34 (28.3%)"; "$165.0M"; "Medium"];
       row ["Slow but Steady"; "35 (29.2%)"; "$82.9M"; "Low-Medium"];
       row ["High Risk"; "25 (20.8%)"; "$23.5M"; "High"]]
      (Some [40; 35; 35; 30]) ;;
  key_finding_box "Critical Supplier Risk"
      ("All top 5 revenue products use " ++ dq ++ "Fast but Variable" ++ dq
      ++ " or " ++ dq ++ "Slow but Steady" ++ dq ++ " vendors. None use "
      ++ "Premium vendors. Vendor 3960 (Diageo) supplies 40% of A-Class "
      ++ "revenue - significant concentration risk.").

Definition section_6 : M pdf unit :=
  add_page ;;
  chapter_title "6. Assumptions & Limitations" 1 ;;
  chapter_title "Data Limitations" 2 ;;
  numbered_list
      [("Temporal Scope: Only 60 days of reliable data (January 2016). "
           ++ "February showed 90% sales drop.");
       ("Missing Costs: No carrying cost or ordering cost data prevented "
           ++ "EOQ calculation.");
       ("Vendor Names: Some vendors only had ID numbers; names extracted "
           ++ "from InvoicePurchases.")] ;;
  chapter_title "Analytical Assumptions" 2 ;;
  numbered_list
      [("Service Level: 95% used for safety stock calculations (Z = 1.65, "
           ++ "industry standard)");
       ("Lead Time Distribution: Assumed normal distribution for safety "
           ++ "stock formula");
       ("Demand Stability: Used January 2016 averages (ignoring February "
           ++ "anomaly)");
       ("Product Classification: ABC based on 2-month snapshot; annual "
           ++ "data would be more robust")] ;;
  chapter_title "Technical Constraints" 2 ;;
  numbered_list
      ["Prophet Forecasts: Limited by short time series (60 observations)";
       "External Regressors: No weather, holidays, or promotions included";
       ("Vendor Classification: Thresholds based on median rather than "
           ++ "business SLAs")].

Definition section_7 : M pdf unit :=
  add_page ;;
  chapter_title "7. Business Recommendations" 1 ;;
  chapter_title "Immediate Actions (0-30 Days)" 2 ;;
  numbered_list
      [("Dual-Source Vendor 3960: 40% of A-Class revenue depends on single "
           ++ "supplier (Diageo)");
       ("Renegotiate SLAs: $85M spent with vendors slower than 7.7 days; "
           ++ "implement penalties");
       ("Increase Safety Stock: Apply 1.5x multiplier for 'Fast but "
           ++ "Variable' vendors");
       ("Consolidate Orders: Top 3 vendors = 618K orders; negotiate volume "
           ++ "discounts")] ;;
  chapter_title "Strategic Initiatives (30-90 Days)" 2 ;;
  numbered_list
      [("Supplier Development: Move A-Class products to Premium vendors "
           ++ "(currently 0/5)");
       ("Inventory Rationalization: Review 4,343 C-Class products for "
           ++ "discontinuation");
       ("Data Infrastructure: Collect full year of data for seasonal "
           ++ "forecasting")] ;;
  chapter_title "Risk Mitigation Priorities" 2 ;;
  create_table
      ["Risk Factor"; "Exposure"; "Mitigation"]
      [row ["Vendor Concentration"; "21.7% Premium tier"; "Diversify supplier base"];
       row ["Variable Suppliers"; "$165M (51.2%) spend"; "Increase safety stock"];
       row ["Lead Time Buffer"; "7.6-day avg, 2.2-day var"; "Maintain safety coverage"]]
      (Some [45; 55; 50]).

Definition section_8 : M pdf unit :=
  add_page ;;
  chapter_title "8. How to Run the Code" 1 ;;
  chapter_title "Prerequisites" 2 ;;
  bullet_list
      ["Python 3.8 or higher";
       "Google Colab (recommended) or Jupyter Notebook";
       "16GB RAM (for large CSV processing)"] true ;;
  chapter_title "Installation" 2 ;;
  set_font "Courier" Regular 9 ;;
  set_fill_color 245 245 245 ;;
  multi_cell 0 6
      ("pip install pandas numpy matplotlib seaborn plotly prophet "
      ++ "scikit-learn kagglehub") true ;;
  ln (Some 3) ;;
  chapter_title "Execution Steps" 2 ;;
  numbered_list
      ["Download Dataset: Automatically via KaggleHub";
       "Phase 1: Data Loading & Cleaning";
       "Phase 2: ABC Analysis";
       "Phase 2.2: Demand Forecasting";
       "Phase 2.3: Reorder Point Analysis";
       "Phase 2.4: Lead Time Analysis"] ;;
  chapter_title "Output Files" 2 ;;
  bullet_list
      ["ABC_Analysis_Results.csv";
       "Reorder_Point_Analysis.csv";
       "Vendor_Performance_Scorecard.csv";
       "AClass_Vendor_Analysis.csv";
       "Demand_Forecast_Detailed.csv"] true.

Definition section_9 : M pdf unit :=
  add_page ;;
  chapter_title "9. Conclusion" 1 ;;
  chapter_body
      ("This analysis transformed Slooze's raw transactional data into "
      ++ "actionable inventory intelligence. Through ABC classification, we "
      ++ "identified that 20% of products drive 80% of revenue - yet these "
      ++ "critical items rely on variable suppliers, creating significant "
      ++ "supply chain vulnerability.") ;;
  chapter_body
      ("The reorder point system provides data-driven triggers for "
      ++ "procurement, while vendor analysis reveals $85 million in spend "
      ++ "with suboptimal suppliers. By implementing the dual-sourcing and "
      ++ "safety stock recommendations, Slooze can protect high-revenue "
      ++ "streams while optimizing working capital across the portfolio.") ;;
  chapter_title "Key Deliverables Provided" 2 ;;
  bullet_list
      ["Automated data pipeline with KaggleHub integration";
       "Statistical product classification (ABC Analysis)";
       "Predictive demand models with uncertainty quantification";
       "Operational reorder triggers with safety stock buffers";
       "Strategic vendor scorecards with risk classification"] true ;;
  key_finding_box "Final Note"
      ("All code is modular, documented, and ready for production "
      ++ "deployment. The analysis framework can be extended to include "
      ++ "additional data sources and more sophisticated forecasting models "
      ++ "as the data infrastructure matures.") ;;
  set_y (-30) ;;
  set_font "Arial" Italic 10 ;;
  set_text_color 128 128 128 ;;
  cell 0 (Some 10) "--- End of Documentation ---" false 0 AlignC false.

Definition output_filename : string := "Slooze_Analysis_Documentation_FPDF.pdf".

(** [pdf.output(name)]: close the document and write it. *)
Definition pdf_output (name : string) : M session unit :=
  doc <- on_pdf (SloozePDF.output geo) ;;
  on_world (write_file name doc).

Definition create_slooze_documentation : M world string :=
  with_local (Surface.new geo) (
    on_pdf (set_auto_page_break true 20) ;;
    cover ;;
    on_pdf table_of_contents ;;
    on_pdf section_1 ;;
    on_pdf section_2 ;;
    on_pdf section_3 ;;
    on_pdf section_4 ;;
    on_pdf section_5 ;;
    on_pdf section_6 ;;
    on_pdf section_7 ;;
    on_pdf section_8 ;;
    on_pdf section_9 ;;
    pdf_output output_filename ;;
    on_world (print (Py.repeat_str "=" 60)) ;;
    on_world (print "PDF GENERATED SUCCESSFULLY!") ;;
    on_world (print (Py.repeat_str "=" 60)) ;;
    on_world (print ("Filename: " ++ output_filename)) ;;
    pages <- on_pdf page_no ;;
    on_world (print ("Pages: " ++ Py.str_nat pages)) ;;
    now <- on_world datetime_now ;;
    on_world (print ("Generated: " ++ strftime_full now)) ;;
    on_world (print (Py.repeat_str "=" 60)) ;;
    ret output_filename).

Definition is_import_error (e : Py.exn) : bool :=
  match e with
  | Py.ImportError _ => true
  | _ => false
  end.

(** The module from its first statement to its last, run as [__main__]. *)
Definition main : M world unit :=
  import_module "fpdf" ;;
  import_module "datetime" ;;
  import_module "os" ;;
  print (newline ++ Py.repeat_str "=" 60) ;;
  print "SLOOZE DATA SCIENCE CHALLENGE - PDF DOCUMENTATION GENERATOR" ;;
  print (Py.repeat_str "=" 60 ++ newline) ;;
  try_except (import_module "fpdf") is_import_error
    (print "ERROR: fpdf2 is not installed." ;;
     print "Please run: pip install fpdf2" ;;
     exit 1) ;;
  output_file <- create_slooze_documentation ;;
  path <- abspath output_file ;;
  print (newline ++ "Documentation saved to: " ++ path).

(** How the interpreter ends: status 0 after the last statement, the
    given status for [exit], and for any other exception a traceback on
    the error stream and status 1. *)
Record result := mkResult { status : Z; after : world }.

Definition traceback (e : Py.exn) : string :=
  "Traceback (most recent call last): " ++
  match e with
  | Py.IndexError => "IndexError"
  | Py.ImportError m => "ModuleNotFoundError: No module named '" ++ m ++ "'"
  | Py.TypeError => "TypeError"
  | Py.SystemExit _ => "SystemExit"
  | Py.RecursionError => "RecursionError"
  | Py.OSError => "OSError"
  | Py.FPDFException m => "FPDFException: " ++ m
  end.

Definition run (w : world) : result :=
  match main w with
  | Ok _ w' => mkResult 0 w'
  | Raise (Py.SystemExit code) w' => mkResult code w'
  | Raise e w' => mkResult 1 (with_stderr (stderr w' ++ [traceback e]) w')
  end.

End Document.

End Script.

(** ** Vocabulary of the statements *)

Module Spec.

Import Surface.
Local Open Scope Q_scope.

Definition is_body (e : entry) : bool :=
  match e_origin e with
  | Body => true
  | _ => false
  end.

(** The drawing calls issued by the page body, in order. *)
Definition body_of (c : list entry) : list entry := filter is_body c.

Definition origin_eqb (a b : origin) : bool :=
  match a, b with
  | Body, Body | Header, Header | Footer, Footer => true
  | _, _ => false
  end.

(** Page [p] carries a drawing call issued by the hook [o]. *)
Definition has_mark (o : origin) (p : nat) (c : list entry) : bool :=
  existsb (fun e => origin_eqb (e_origin e) o && Nat.eqb (e_page e) p) c.

(** A run of body text with its weight: one cell or one paragraph. *)
Inductive run :=
| CellRun (txt : string) (s : font_style)
| ParaRun (txt : string) (s : font_style).

Definition run_of (e : entry) : list run :=
  match e_origin e, e_prim e with
  | Body, Text _ _ _ _ txt f _ _ _ _ => [CellRun txt (style f)]
  | Body, Para _ _ _ _ txt _ f _ _ => [ParaRun txt (style f)]
  | _, _ => []
  end.

Definition body_runs (c : list entry) : list run := flat_map run_of c.

(** The runs of one bullet: indent, glyph, then either a bold label up to
    and including the separator followed by the remainder, or the whole
    item. *)
Definition item_runs (bold_prefix : bool) (item : string) : list run :=
  if bold_prefix && Py.contains ":" item then
    match Py.partition ":" item with
    | Some (label, rest) =>
        [CellRun "" Regular; CellRun SloozePDF.bullet Regular;
         CellRun (label ++ ":") Bold; ParaRun rest Regular]
    | None => []
    end
  else
    [CellRun "" Regular; CellRun SloozePDF.bullet Regular; ParaRun item Regular].

Definition is_bold_cell (e : entry) : bool :=
  match e_origin e, e_prim e with
  | Body, Text _ _ _ _ _ f _ _ _ _ =>
      match style f with Bold => true | _ => false end
  | _, _ => false
  end.

(** [e2] is a regular paragraph that starts on the page and line of the
    cell [e1], where that cell ends. *)
Definition continues (e1 e2 : entry) : bool :=
  match e_prim e1, e_prim e2 with
  | Text x1 y1 w1 _ _ _ _ _ _ _, Para x2 y2 _ _ _ _ f _ _ =>
      is_body e2 && Nat.eqb (e_page e1) (e_page e2)
      && Qeq_bool x2 (x1 + w1) && Qeq_bool y2 y1
      && match style f with Regular => true | _ => false end
  | _, _ => false
  end.

(** Every bold body cell is directly followed by its continuation. *)
Fixpoint labels_continue (c : list entry) : bool :=
  match c with
  | [] => true
  | e1 :: r =>
      (if is_bold_cell e1
       then match r with
            | e2 :: _ => continues e1 e2
            | [] => false
            end
       else true)
      && labels_continue r
  end.

(** Text and drawn width of the body cells. *)
Definition cell_of (e : entry) : list (string * Q) :=
  match e_origin e, e_prim e with
  | Body, Text _ _ w _ txt _ _ _ _ _ => [(txt, w)]
  | _, _ => []
  end.

Definition body_cells (c : list entry) : list (string * Q) := flat_map cell_of c.

(** The vertical space taken by a title: the height of its cell and the
    distance from its top edge to the cursor afterwards. *)
Definition title_height (level : Z) : Q :=
  if (level =? 1)%Z then 12 else if (level =? 2)%Z then 10 else 8.

Definition title_advance (level : Z) : Q :=
  if (level =? 1)%Z then 17 else if (level =? 2)%Z then 12 else 9.

(** The accent rule under a title. *)
Definition is_body_rule (e : entry) : bool :=
  match e_origin e, e_prim e with
  | Body, Line _ _ _ _ _ _ => true
  | _, _ => false
  end.

(** The column widths in force in a call of [create_table]. *)
Definition widths_of (headers : list string) (col_widths : option (list Q)) : list Q :=
  match col_widths with
  | None => SloozePDF.default_col_widths headers
  | Some ws => ws
  end.

(** The width between the margins. *)
Definition content_width (geo : geometry) : Q :=
  page_w geo - l_margin geo - r_margin geo.

(** Equal division of the content width, as the specification words the
    default column widths. *)
Definition equal_share (geo : geometry) (headers : list string) : list Q :=
  repeat (content_width geo / inject_Z (Z.of_nat (length headers))) (length headers).

Section Effects.

Variable geo : geometry.
Variable string_width : font -> string -> Q.
Variable line_count : font -> Q -> string -> nat.

(** What [footer] draws when [add_page] or [output] leaves a page. *)
Definition footer_mark (st : pdf) : list entry :=
  if Nat.leb (page st) 1 then []
  else [mkEntry (page st) Footer
          (Text (l_margin geo) (page_h geo + -15)
                (page_w geo - r_margin geo - l_margin geo) 10
                ("Page " ++ Py.str_nat (page st))
                (mkFont "Arial" Italic 8) (128, 128, 128)%Z false None AlignC)].

(** What [header] draws on the page that [add_page] opens. *)
Definition header_mark (st : pdf) : list entry :=
  if Nat.eqb (page st) 0 then []
  else [mkEntry (S (page st)) Header
          (Text (l_margin geo) (t_margin geo)
                (page_w geo - r_margin geo - l_margin geo) 8
                "Slooze Data Science Challenge - Technical Documentation"
                (mkFont "Arial" Bold 9) (102, 102, 102)%Z false None AlignC);
        mkEntry (S (page st)) Header
          (Line 15 (t_margin geo + 5) 195 (t_margin geo + 5) (200, 200, 200)%Z
                (line_width (gs st)))].

(** The state that [add_page] leaves. *)
Definition after_add_page (st : pdf) : pdf :=
  mkPdf (S (page st)) (l_margin geo)
        (if Nat.eqb (page st) 0 then t_margin geo else t_margin geo + 8)
        (if Nat.eqb (page st) 0 then lasth st else 8)
        (gs st) (auto_page_break st) (page_break_trigger st) Body
        (canvas st ++ footer_mark st ++ header_mark st).

(** The automatic page break, taken when it is due. *)
Definition settle (h : Q) (st : pdf) : pdf :=
  if will_page_break geo h st then with_x (x st) (after_add_page st) else st.

Definition cell_height (h : option Q) (st : pdf) : Q :=
  match h with
  | Some v => v
  | None => font_height (cur_font (gs st))
  end.

(** The states that [cell] and [multi_cell] leave on an open page. *)
Definition after_cell (w : Q) (h : option Q) (txt : string) (border : bool)
    (ln : Z) (a : align) (fill : bool) (st : pdf) : pdf :=
  place_cell geo w (cell_height h st) txt border ln a fill
             (settle (cell_height h st) st).

(** The entry that [cell] puts on the canvas. *)
Definition cell_entry (w : Q) (h : option Q) (txt : string) (border : bool)
    (a : align) (fill : bool) (st : pdf) : entry :=
  let s := settle (cell_height h st) st in
  mkEntry (page s) (section s)
    (Text (x s) (y s) (cell_width geo w s) (cell_height h st) txt
          (cur_font (gs s)) (text_color (gs s)) border
          (if fill then Some (fill_color (gs s)) else None) a).

Fixpoint advance (h : Q) (n : nat) (st : pdf) : pdf :=
  match n with
  | O => st
  | S k => advance h k (with_y (y (settle h st) + h) (settle h st))
  end.

Definition para_lines (w : Q) (txt : string) (st : pdf) : nat :=
  Nat.max 1 (line_count (cur_font (gs st)) (cell_width geo w st) txt).

(** The entry that [multi_cell] puts on the canvas. *)
Definition para_entry (w h : Q) (txt : string) (fill : bool) (st : pdf) : entry :=
  let s := settle h st in
  mkEntry (page s) (section s)
    (Para (x s) (y s) (cell_width geo w st) h txt (para_lines w txt st)
          (cur_font (gs s)) (text_color (gs s))
          (if fill then Some (fill_color (gs s)) else None)).

Definition after_multi_cell (w h : Q) (txt : string) (fill : bool) (st : pdf) : pdf :=
  let w' := cell_width geo w st in
  let st2 :=
    advance h (Nat.pred (para_lines w txt st))
            (place_para w' h txt (para_lines w txt st) fill (settle h st)) in
  with_x (x st2 + w') (with_lasth h st2).

(** The top edge of a title: the cursor, or the start of the body of the
    next page when the title cell does not fit. *)
Definition title_top (level : Z) (st : pdf) : Q :=
  if will_page_break geo (title_height level) st then t_margin geo + 8 else y st.

(** From [st] to [st'] the page stayed open, the body kept drawing under
    the same break settings, and [added] is what it drew. *)
Definition extends (st st' : pdf) (added : list entry) : Prop :=
  (0 < page st')%nat /\ section st' = Body /\
  page_break_trigger st' = page_break_trigger st /\
  auto_page_break st' = auto_page_break st /\
  body_of (canvas st') = (body_of (canvas st) ++ added)%list.

(** The font that the list methods select. *)
Definition list_font : font := mkFont "Arial" Regular 10.

(** The paragraph of a bullet: the remainder after the first separator
    in bold-prefix mode, the whole item otherwise. *)
Definition item_text (bold_prefix : bool) (item : string) : string :=
  if bold_prefix && Py.contains ":" item then
    match Py.partition ":" item with
    | Some (_, rest) => rest
    | None => ""
    end
  else item.

(** The width of the cell of a bold label that starts at [x2]: the width
    of the label with a separator and a blank, and up to the right margin
    when that width is zero. *)
Definition label_width (label : string) (x2 : Q) : Q :=
  if Qeq_bool (string_width (mkFont "Arial" Bold 10) (label ++ ": ")) 0
  then page_w geo - r_margin geo - x2
  else string_width (mkFont "Arial" Bold 10) (label ++ ": ").

(** The width left for the paragraph of a bullet that starts at the
    cursor: up to the right margin from behind the indent, the glyph
    and the label. *)
Definition item_room (bold_prefix : bool) (item : string) (st : pdf) : Q :=
  if bold_prefix && Py.contains ":" item then
    match Py.partition ":" item with
    | Some (label, _) =>
        page_w geo - r_margin geo
        - (x st + 5 + 5 + label_width label (x st + 5 + 5))
    | None => 0
    end
  else page_w geo - r_margin geo - (x st + 5 + 5).

Definition item_fits (bold_prefix : bool) (item : string) (st : pdf) : bool :=
  negb (no_room (item_room bold_prefix item st) (item_text bold_prefix item)).

(** Every character of [txt] that needs room has, in the font [f], a
    glyph of positive width that fits in the width [w] between the two
    cell margins. *)
Definition glyphs_fit (f : font) (w : Q) (txt : string) : bool :=
  forallb (fun c =>
             negb (inked c)
             || (Qltb 0 (string_width f (String c EmptyString))
                 && Qle_bool (string_width f (String c EmptyString))
                             (w - 2 * c_margin)))
          (list_ascii_of_string txt).

(** A call of the body that returns on every open page and leaves the
    page open for the body. *)
Definition safe (m : M pdf unit) : Prop :=
  forall st, (0 < page st)%nat -> section st = Body ->
    exists st', m st = Ok tt st' /\ (0 < page st')%nat /\ section st' = Body.

(** A call of the body that, on an open page, either returns like a safe
    one or finds no room for a paragraph; and one that always finds no
    room. *)
Definition may_stop (m : M pdf unit) : Prop :=
  forall st, (0 < page st)%nat -> section st = Body ->
    (exists st', m st = Ok tt st' /\ (0 < page st')%nat /\ section st' = Body) \/
    (exists st', m st = Raise no_space st').

Definition stops (m : M pdf unit) : Prop :=
  forall st, (0 < page st)%nat -> section st = Body ->
    exists st', m st = Raise no_space st'.

(** All the drawing of [create_slooze_documentation], with the text of
    the date line of the cover as a parameter. *)
Definition rendering (date : string) : M pdf unit :=
  set_auto_page_break geo true 20 ;;
  Script.cover_static geo ;;
  SloozePDF.cell geo 180 (Some 8) date false 1 AlignC false ;;
  Script.table_of_contents geo ;;
  Script.section_1 geo string_width line_count ;;
  Script.section_2 geo string_width line_count ;;
  Script.section_3 geo string_width line_count ;;
  Script.section_4 geo line_count ;;
  Script.section_5 geo line_count ;;
  Script.section_6 geo line_count ;;
  Script.section_7 geo line_count ;;
  Script.section_8 geo string_width line_count ;;
  Script.section_9 geo string_width line_count.

(** The header and footer marks are where they belong: headers on pages
    2 to the current one, footers on pages 2 to the one before it, whose
    footer is still to come. *)
Definition chrome_inv (st : pdf) : Prop :=
  section st = Body /\
  (forall p, has_mark Header p (canvas st)
             = Nat.leb 2 p && Nat.leb p (page st)) /\
  (forall p, has_mark Footer p (canvas st)
             = Nat.leb 2 p && Nat.ltb p (page st)).

(** The programs that draw through the renderer: they read the state,
    change the graphics state and the cursor, draw, and start pages. *)
Inductive client : forall A : Type, M pdf A -> Prop :=
| client_ret A (a : A) : client A (ret a)
| client_bind A B (m : M pdf A) (k : A -> M pdf B) :
    client A m -> (forall a, client B (k a)) -> client B (bind m k)
| client_raise A (e : Py.exn) : client A (raise e)
| client_gets A (f : pdf -> A) : client A (gets f)
| client_set_font fam sty size : client unit (set_font fam sty size)
| client_set_text_color r g b : client unit (set_text_color r g b)
| client_set_draw_color r g b : client unit (set_draw_color r g b)
| client_set_fill_color r g b : client unit (set_fill_color r g b)
| client_set_line_width w : client unit (set_line_width w)
| client_set_auto_page_break a m : client unit (set_auto_page_break geo a m)
| client_set_y v : client unit (set_y geo v)
| client_set_x v : client unit (set_x geo v)
| client_ln h : client unit (ln geo h)
| client_line x1 y1 x2 y2 : client unit (line x1 y1 x2 y2)
| client_rect vx vy w h s : client unit (rect vx vy w h s)
| client_cell w h txt border l a fill :
    client unit (SloozePDF.cell geo w h txt border l a fill)
| client_multi_cell w h txt fill :
    client unit (SloozePDF.multi_cell geo line_count w h txt fill)
| client_add_page : client unit (SloozePDF.add_page geo).

End Effects.

(** The three lines that the script prints first. *)
Definition banner : list string :=
  [(Script.newline ++ Py.repeat_str "=" 60)%string;
   "SLOOZE DATA SCIENCE CHALLENGE - PDF DOCUMENTATION GENERATOR";
   (Py.repeat_str "=" 60 ++ Script.newline)%string].

End Spec.

(** ** Sample inputs *)

Module Sample.

Import Surface.
Local Open Scope Q_scope.

(** Simple text metrics: two millimetres a character, ninety characters
    a line. *)
Definition string_width (f : font) (s : string) : Q :=
  inject_Z (Z.of_nat (String.length s)) * 2.

Definition line_count (f : font) (w : Q) (s : string) : nat :=
  S (String.length s / 90).

(** A clock that advances one second a reading. *)
Definition clock (n : nat) : Script.datetime :=
  Script.mkDatetime 2026 2 14 9 30 n.

Definition world (site : list string) (args : list string) : Script.world :=
  Script.mkWorld site clock 0 args "/home/analyst" (fun _ => true) [] [] [].

(** No [fpdf2] installed. *)
Definition bare : Script.world := world [] ["generate_slooze_pdf.py"].

(** [fpdf2] installed. *)
Definition installed : Script.world := world ["fpdf"] ["generate_slooze_pdf.py"].

(** A new document after its first [add_page]. *)
Definition first_page : pdf := Spec.after_add_page a4 (Surface.new a4).

(** A run on A4 paper with the sample metrics. *)
Abbreviation run := (Script.run a4 string_width line_count).

End Sample.

(** * Verification *)

(** ** Facts about the Python helpers *)

Module PyFacts.

Lemma partition_some sep s :
  Py.contains sep s = true -> exists a b, Py.partition sep s = Some (a, b).
Proof.
  induction s as [|c r IH]; simpl; [discriminate|].
  destruct (Ascii.eqb c sep); [eauto|].
  intros H. destruct (IH H) as (a & b & E). rewrite E. eauto.
Qed.

Lemma partition_none sep s :
  Py.contains sep s = false -> Py.partition sep s = None.
Proof.
  induction s as [|c r IH]; simpl; [reflexivity|].
  destruct (Ascii.eqb c sep); [discriminate|].
  intros H. rewrite (IH H). reflexivity.
Qed.

(** The split is at the leftmost separator: the first half has none, and
    the halves joined by the separator give the string back. *)
Lemma partition_spec sep s a b :
  Py.partition sep s = Some (a, b) ->
  s = a ++ String sep b /\ Py.contains sep a = false.
Proof.
  revert a. induction s as [|c r IH]; simpl; intros a; [discriminate|].
  destruct (Ascii.eqb c sep) eqn:E.
  - intros H. injection H as <- <-. apply Ascii.eqb_eq in E. subst. auto.
  - destruct (Py.partition sep r) as [[a' b']|]; [|discriminate].
    intros H. injection H as <- <-.
    destruct (IH a' eq_refl) as [-> Hc]. simpl. rewrite E. auto.
Qed.

Lemma count_app sep a b : Py.count sep (a ++ b) = (Py.count sep a + Py.count sep b)%nat.
Proof. induction a as [|c r IH]; simpl; [reflexivity|]. rewrite IH. lia. Qed.

Lemma count_none sep s : Py.contains sep s = false -> Py.count sep s = 0%nat.
Proof.
  induction s as [|c r IH]; simpl; [reflexivity|].
  destruct (Ascii.eqb c sep); [discriminate|]. auto.
Qed.

Lemma count_positive sep s : (0 < Py.count sep s)%nat -> Py.contains sep s = true.
Proof.
  induction s as [|c r IH]; simpl; [lia|].
  destruct (Ascii.eqb c sep); auto.
Qed.

Lemma partition_count sep s a b :
  Py.partition sep s = Some (a, b) -> Py.count sep s = S (Py.count sep b).
Proof.
  intros H. destruct (partition_spec _ _ _ _ H) as [-> Hc].
  rewrite count_app, (count_none _ _ Hc). simpl.
  rewrite Ascii.eqb_refl. reflexivity.
Qed.

Lemma split1_parts sep s a b :
  Py.partition sep s = Some (a, b) -> Py.split1 sep s = [a; b].
Proof. unfold Py.split1. intros ->. reflexivity. Qed.

End PyFacts.

Local Open Scope list_scope.

(** ** Facts about the drawing surface under the renderer's hooks *)

Module SurfaceFacts.

Import Surface SloozePDF Spec.
Local Open Scope Q_scope.

Arguments Qltb : simpl never.
Arguments Py.str_nat : simpl never.

Ltac mrun :=
  cbv beta iota zeta delta
    [bind ret modify get gets raise page_no get_y get_string_width set_font
     set_text_color set_draw_color set_fill_color set_line_width
     set_auto_page_break set_y set_x set_xy ln check_page emit line rect
     cell_gen will_page_break
     with_page with_x with_y with_lasth with_gs with_break with_section
     with_canvas with_font with_text_color with_draw_color with_fill_color
     with_line_width];
  cbn.

Lemma Qltb_irrefl a : Qltb a a = false.
Proof.
  unfold Qltb. rewrite (proj2 (Qle_bool_iff a a)); [reflexivity | apply Qle_refl].
Qed.

Lemma Qltb_lt a b : Qltb a b = true <-> a < b.
Proof.
  unfold Qltb. rewrite negb_true_iff. split; intros H.
  - apply Qnot_le_lt. intros L. apply Qle_bool_iff in L. congruence.
  - destruct (Qle_bool b a) eqn:E; [|reflexivity].
    apply Qle_bool_iff in E. exfalso. apply (Qlt_not_le _ _ H E).
Qed.

Lemma Qltb_ge a b : Qltb a b = false <-> b <= a.
Proof.
  unfold Qltb. rewrite negb_false_iff. apply Qle_bool_iff.
Qed.

Section Hooks.

Variable geo : geometry.
Variable string_width : font -> string -> Q.
Variable line_count : font -> Q -> string -> nat.

Local Abbreviation settle := (Spec.settle geo).
Local Abbreviation after_add_page := (Spec.after_add_page geo).
Local Abbreviation after_cell := (Spec.after_cell geo).
Local Abbreviation after_multi_cell := (Spec.after_multi_cell geo line_count).
Local Abbreviation advance := (Spec.advance geo).

(** [add_page] always returns, in the state [after_add_page]. *)
Lemma add_page_ok st : add_page geo st = Ok tt (after_add_page st).
Proof.
  destruct st as [pg x0 y0 lh g au tr sec cv].
  unfold Spec.after_add_page, footer_mark, header_mark.
  unfold add_page, Surface.add_page, header, footer, hook_cell.
  destruct pg as [|[|pg]]; mrun.
  - rewrite app_nil_r. reflexivity.
  - rewrite Qltb_irrefl. mrun. rewrite <- app_assoc. reflexivity.
  - rewrite andb_false_r. mrun. rewrite Qltb_irrefl. mrun.
    rewrite <- !app_assoc. reflexivity.
Qed.

Lemma break_ok h st :
  (if will_page_break geo h st
   then perform_page_break geo (header geo) (footer geo) else ret tt) st
  = Ok tt (settle h st).
Proof.
  unfold Spec.settle. destruct (will_page_break geo h st); [|reflexivity].
  unfold perform_page_break, bind, get.
  fold (add_page geo). rewrite add_page_ok. reflexivity.
Qed.

Lemma cell_ok w h txt border l a fill st :
  (0 < page st)%nat ->
  cell geo w h txt border l a fill st = Ok tt (after_cell w h txt border l a fill st).
Proof.
  intros Hp. unfold cell, Surface.cell, cell_gen, check_page.
  unfold bind at 1. destruct (Nat.eqb_spec (page st) 0) as [E|_]; [lia|].
  unfold bind at 1, get. unfold bind at 1.
  fold (cell_height h st). rewrite break_ok. reflexivity.
Qed.

Lemma cell_closed w h txt border l a fill st :
  page st = 0%nat ->
  exists m, cell geo w h txt border l a fill st = Raise (Py.FPDFException m) st.
Proof.
  intros Hp. unfold cell, Surface.cell, cell_gen, check_page.
  unfold bind at 1. rewrite Hp. simpl. eauto.
Qed.

Lemma advance_lines_ok h n st :
  advance_lines geo (perform_page_break geo (header geo) (footer geo)) h n st
  = Ok tt (advance h n st).
Proof.
  revert st. induction n as [|n IH]; intros st; [reflexivity|].
  simpl. unfold bind at 1, get. unfold bind at 1. rewrite break_ok.
  unfold bind at 1, modify. apply IH.
Qed.

Lemma multi_cell_ok w h txt fill st :
  (0 < page st)%nat -> no_room (cell_width geo w st) txt = false ->
  multi_cell geo line_count w h txt fill st = Ok tt (after_multi_cell w h txt fill st).
Proof.
  intros Hp Hroom. unfold multi_cell, Surface.multi_cell, multi_cell_gen, check_page.
  unfold bind at 1. destruct (Nat.eqb_spec (page st) 0) as [E|_]; [lia|].
  unfold bind at 1, get. rewrite Hroom.
  unfold bind at 1. rewrite break_ok.
  unfold bind at 1, modify at 1. unfold bind at 1.
  fold (para_lines geo line_count w txt st).
  rewrite advance_lines_ok. reflexivity.
Qed.

(** Without room for a character the call raises before it draws. *)
Lemma multi_cell_no_room w h txt fill st :
  (0 < page st)%nat -> no_room (cell_width geo w st) txt = true ->
  multi_cell geo line_count w h txt fill st = Raise no_space st.
Proof.
  intros Hp Hroom. unfold multi_cell, Surface.multi_cell, multi_cell_gen, check_page.
  unfold bind at 1. destruct (Nat.eqb_spec (page st) 0) as [E|_]; [lia|].
  unfold bind at 1, get. rewrite Hroom. reflexivity.
Qed.

Lemma multi_cell_closed w h txt fill st :
  page st = 0%nat ->
  exists m, multi_cell geo line_count w h txt fill st = Raise (Py.FPDFException m) st.
Proof.
  intros Hp. unfold multi_cell, Surface.multi_cell, multi_cell_gen, check_page.
  unfold bind at 1. rewrite Hp. simpl. eauto.
Qed.

End Hooks.
End SurfaceFacts.

(** ** The renderer methods *)

Module RendererFacts.

Import Surface SloozePDF Spec SurfaceFacts.
Local Open Scope Q_scope.

Lemma bind_eq {S A B} (m : M S A) (k : A -> M S B) st a st1 :
  m st = Ok a st1 -> bind m k st = k a st1.
Proof. unfold bind. intros ->. reflexivity. Qed.

Lemma bind_raise_eq {S A B} (m : M S A) (k : A -> M S B) st e st1 :
  m st = Raise e st1 -> bind m k st = Raise e st1.
Proof. unfold bind. intros ->. reflexivity. Qed.

Lemma body_of_app a b : body_of (a ++ b) = body_of a ++ body_of b.
Proof. apply filter_app. Qed.

(** Reading a field after an update of the record. *)

Lemma page_with_x v s : page (with_x v s) = page s.
Proof. reflexivity. Qed.

Lemma x_with_x v s : x (with_x v s) = v.
Proof. reflexivity. Qed.

Lemma y_with_x v s : y (with_x v s) = y s.
Proof. reflexivity. Qed.

Lemma lasth_with_x v s : lasth (with_x v s) = lasth s.
Proof. reflexivity. Qed.

Lemma gs_with_x v s : gs (with_x v s) = gs s.
Proof. reflexivity. Qed.

Lemma auto_page_break_with_x v s : auto_page_break (with_x v s) = auto_page_break s.
Proof. reflexivity. Qed.

Lemma page_break_trigger_with_x v s : page_break_trigger (with_x v s) = page_break_trigger s.
Proof. reflexivity. Qed.

Lemma section_with_x v s : section (with_x v s) = section s.
Proof. reflexivity. Qed.

Lemma canvas_with_x v s : canvas (with_x v s) = canvas s.
Proof. reflexivity. Qed.

Lemma page_with_y v s : page (with_y v s) = page s.
Proof. reflexivity. Qed.

Lemma x_with_y v s : x (with_y v s) = x s.
Proof. reflexivity. Qed.

Lemma y_with_y v s : y (with_y v s) = v.
Proof. reflexivity. Qed.

Lemma lasth_with_y v s : lasth (with_y v s) = lasth s.
Proof. reflexivity. Qed.

Lemma gs_with_y v s : gs (with_y v s) = gs s.
Proof. reflexivity. Qed.

Lemma auto_page_break_with_y v s : auto_page_break (with_y v s) = auto_page_break s.
Proof. reflexivity. Qed.

Lemma page_break_trigger_with_y v s : page_break_trigger (with_y v s) = page_break_trigger s.
Proof. reflexivity. Qed.

Lemma section_with_y v s : section (with_y v s) = section s.
Proof. reflexivity. Qed.

Lemma canvas_with_y v s : canvas (with_y v s) = canvas s.
Proof. reflexivity. Qed.

Lemma page_with_lasth v s : page (with_lasth v s) = page s.
Proof. reflexivity. Qed.

Lemma x_with_lasth v s : x (with_lasth v s) = x s.
Proof. reflexivity. Qed.

Lemma y_with_lasth v s : y (with_lasth v s) = y s.
Proof. reflexivity. Qed.

Lemma lasth_with_lasth v s : lasth (with_lasth v s) = v.
Proof. reflexivity. Qed.

Lemma gs_with_lasth v s : gs (with_lasth v s) = gs s.
Proof. reflexivity. Qed.

Lemma auto_page_break_with_lasth v s : auto_page_break (with_lasth v s) = auto_page_break s.
Proof. reflexivity. Qed.

Lemma page_break_trigger_with_lasth v s : page_break_trigger (with_lasth v s) = page_break_trigger s.
Proof. reflexivity. Qed.

Lemma section_with_lasth v s : section (with_lasth v s) = section s.
Proof. reflexivity. Qed.

Lemma canvas_with_lasth v s : canvas (with_lasth v s) = canvas s.
Proof. reflexivity. Qed.

Lemma page_with_gs v s : page (with_gs v s) = page s.
Proof. reflexivity. Qed.

Lemma x_with_gs v s : x (with_gs v s) = x s.
Proof. reflexivity. Qed.

Lemma y_with_gs v s : y (with_gs v s) = y s.
Proof. reflexivity. Qed.

Lemma lasth_with_gs v s : lasth (with_gs v s) = lasth s.
Proof. reflexivity. Qed.

Lemma gs_with_gs v s : gs (with_gs v s) = v.
Proof. reflexivity. Qed.

Lemma auto_page_break_with_gs v s : auto_page_break (with_gs v s) = auto_page_break s.
Proof. reflexivity. Qed.

Lemma page_break_trigger_with_gs v s : page_break_trigger (with_gs v s) = page_break_trigger s.
Proof. reflexivity. Qed.

Lemma section_with_gs v s : section (with_gs v s) = section s.
Proof. reflexivity. Qed.

Lemma canvas_with_gs v s : canvas (with_gs v s) = canvas s.
Proof. reflexivity. Qed.

Lemma page_with_canvas v s : page (with_canvas v s) = page s.
Proof. reflexivity. Qed.

Lemma x_with_canvas v s : x (with_canvas v s) = x s.
Proof. reflexivity. Qed.

Lemma y_with_canvas v s : y (with_canvas v s) = y s.
Proof. reflexivity. Qed.

Lemma lasth_with_canvas v s : lasth (with_canvas v s) = lasth s.
Proof. reflexivity. Qed.

Lemma gs_with_canvas v s : gs (with_canvas v s) = gs s.
Proof. reflexivity. Qed.

Lemma auto_page_break_with_canvas v s : auto_page_break (with_canvas v s) = auto_page_break s.
Proof. reflexivity. Qed.

Lemma page_break_trigger_with_canvas v s : page_break_trigger (with_canvas v s) = page_break_trigger s.
Proof. reflexivity. Qed.

Lemma section_with_canvas v s : section (with_canvas v s) = section s.
Proof. reflexivity. Qed.

Lemma canvas_with_canvas v s : canvas (with_canvas v s) = v.
Proof. reflexivity. Qed.

Create Rewrite HintDb surface.

#[local] Hint Rewrite page_with_x x_with_x y_with_x lasth_with_x gs_with_x auto_page_break_with_x page_break_trigger_with_x section_with_x canvas_with_x page_with_y x_with_y y_with_y lasth_with_y gs_with_y auto_page_break_with_y page_break_trigger_with_y section_with_y canvas_with_y page_with_lasth x_with_lasth y_with_lasth lasth_with_lasth gs_with_lasth auto_page_break_with_lasth page_break_trigger_with_lasth section_with_lasth canvas_with_lasth page_with_gs x_with_gs y_with_gs lasth_with_gs gs_with_gs auto_page_break_with_gs page_break_trigger_with_gs section_with_gs canvas_with_gs page_with_canvas x_with_canvas y_with_canvas lasth_with_canvas gs_with_canvas auto_page_break_with_canvas page_break_trigger_with_canvas section_with_canvas canvas_with_canvas : surface.

Section Methods.

Variable geo : geometry.
Variable string_width : font -> string -> Q.
Variable line_count : font -> Q -> string -> nat.

Local Abbreviation settle := (Spec.settle geo).
Local Abbreviation after_add_page := (Spec.after_add_page geo).
Local Abbreviation after_cell := (Spec.after_cell geo).
Local Abbreviation after_multi_cell := (Spec.after_multi_cell geo line_count).
Local Abbreviation advance := (Spec.advance geo).

Lemma body_of_marks st :
  body_of (footer_mark geo st ++ header_mark geo st) = [].
Proof.
  unfold footer_mark, header_mark.
  destruct (Nat.leb (page st) 1), (Nat.eqb (page st) 0); reflexivity.
Qed.

(** *** The automatic page break *)

Lemma settle_page h st : (page st <= page (settle h st))%nat.
Proof. unfold Spec.settle. destruct (will_page_break geo h st); simpl; lia. Qed.

Lemma settle_gs h st : gs (settle h st) = gs st.
Proof. unfold Spec.settle. destruct (will_page_break geo h st); reflexivity. Qed.

Lemma settle_x h st : x (settle h st) = x st.
Proof. unfold Spec.settle. destruct (will_page_break geo h st); reflexivity. Qed.

Lemma settle_section h st : section st = Body -> section (settle h st) = Body.
Proof. unfold Spec.settle. destruct (will_page_break geo h st); auto. Qed.

Lemma settle_auto h st : auto_page_break (settle h st) = auto_page_break st.
Proof. unfold Spec.settle. destruct (will_page_break geo h st); reflexivity. Qed.

Lemma settle_trigger h st : page_break_trigger (settle h st) = page_break_trigger st.
Proof. unfold Spec.settle. destruct (will_page_break geo h st); reflexivity. Qed.

Lemma settle_body h st : body_of (canvas (settle h st)) = body_of (canvas st).
Proof.
  unfold Spec.settle. destruct (will_page_break geo h st); [|reflexivity].
  simpl. rewrite body_of_app, body_of_marks, app_nil_r. reflexivity.
Qed.

Lemma settle_y h st :
  (0 < page st)%nat ->
  y (settle h st) = if will_page_break geo h st then t_margin geo + 8 else y st.
Proof.
  intros Hp. unfold Spec.settle. destruct (will_page_break geo h st); [|reflexivity].
  simpl. destruct (Nat.eqb_spec (page st) 0); [lia | reflexivity].
Qed.

Lemma settle_fits h st : will_page_break geo h st = false -> settle h st = st.
Proof. unfold Spec.settle. intros ->. reflexivity. Qed.

(** The break test reads the cursor ordinate, the trigger and the flags
    only. *)
Lemma will_page_break_ext h st st' :
  y st' = y st -> page_break_trigger st' = page_break_trigger st ->
  section st' = section st -> auto_page_break st' = auto_page_break st ->
  will_page_break geo h st' = will_page_break geo h st.
Proof. unfold will_page_break. intros -> -> -> ->. reflexivity. Qed.

(** After a break there is room for an element of height [h] as soon as
    the page can hold the header and that element. *)
Lemma settle_settled h st :
  (0 < page st)%nat ->
  t_margin geo + 8 + h <= page_break_trigger st ->
  will_page_break geo h (settle h st) = false.
Proof.
  intros Hp Hroom. unfold Spec.settle.
  destruct (will_page_break geo h st) eqn:E; [|exact E].
  unfold will_page_break. simpl.
  destruct (Nat.eqb_spec (page st) 0); [lia|].
  replace (Qltb (page_break_trigger st) (t_margin geo + 8 + h)) with false.
  - rewrite andb_false_r. reflexivity.
  - symmetry. apply Qltb_ge. exact Hroom.
Qed.

(** *** Lines and rectangles *)

Lemma line_ok x1 y1 x2 y2 st :
  (0 < page st)%nat ->
  line x1 y1 x2 y2 st
  = Ok tt (with_canvas
             (canvas st ++ [mkEntry (page st) (section st)
                              (Line x1 y1 x2 y2 (draw_color (gs st)) (line_width (gs st)))])
             st).
Proof.
  intros Hp. unfold line, check_page, bind, get, emit, modify.
  destruct (Nat.eqb_spec (page st) 0); [lia | reflexivity].
Qed.

Lemma rect_ok vx vy w h s st :
  (0 < page st)%nat ->
  rect vx vy w h s st
  = Ok tt (with_canvas
             (canvas st ++ [mkEntry (page st) (section st)
                              (Rect vx vy w h s (fill_color (gs st)))])
             st).
Proof.
  intros Hp. unfold rect, check_page, bind, get, emit, modify.
  destruct (Nat.eqb_spec (page st) 0); [lia | reflexivity].
Qed.

(** *** Cells *)

Lemma after_cell_page w h txt border l a fill st :
  page (after_cell w h txt border l a fill st) = page (settle (cell_height h st) st).
Proof.
  unfold Spec.after_cell, place_cell.
  destruct (l =? 1)%Z; [reflexivity|]. destruct (l =? 2)%Z; reflexivity.
Qed.

Lemma after_cell_open w h txt border l a fill st :
  (0 < page st)%nat -> (0 < page (after_cell w h txt border l a fill st))%nat.
Proof.
  intros Hp. rewrite after_cell_page.
  pose proof (settle_page (cell_height h st) st). lia.
Qed.

Lemma after_cell_gs w h txt border l a fill st :
  gs (after_cell w h txt border l a fill st) = gs st.
Proof.
  unfold Spec.after_cell, place_cell.
  destruct (l =? 1)%Z; [|destruct (l =? 2)%Z]; simpl; apply settle_gs.
Qed.

Lemma after_cell_section w h txt border l a fill st :
  section st = Body -> section (after_cell w h txt border l a fill st) = Body.
Proof.
  intros Hs. unfold Spec.after_cell, place_cell.
  destruct (l =? 1)%Z; [|destruct (l =? 2)%Z]; simpl; apply settle_section, Hs.
Qed.

Lemma after_cell_trigger w h txt border l a fill st :
  page_break_trigger (after_cell w h txt border l a fill st) = page_break_trigger st.
Proof.
  unfold Spec.after_cell, place_cell.
  destruct (l =? 1)%Z; [|destruct (l =? 2)%Z]; simpl; apply settle_trigger.
Qed.

Lemma after_cell_auto w h txt border l a fill st :
  auto_page_break (after_cell w h txt border l a fill st) = auto_page_break st.
Proof.
  unfold Spec.after_cell, place_cell.
  destruct (l =? 1)%Z; [|destruct (l =? 2)%Z]; simpl; apply settle_auto.
Qed.

Lemma after_cell_canvas w h txt border l a fill st :
  canvas (after_cell w h txt border l a fill st)
  = canvas (settle (cell_height h st) st) ++ [cell_entry geo w h txt border a fill st].
Proof.
  unfold Spec.after_cell, place_cell, Spec.cell_entry.
  destruct (l =? 1)%Z; [|destruct (l =? 2)%Z]; reflexivity.
Qed.

Lemma after_cell_y w h txt border l a fill st :
  y (after_cell w h txt border l a fill st)
  = if ((l =? 1) || (l =? 2))%Z
    then y (settle (cell_height h st) st) + cell_height h st
    else y (settle (cell_height h st) st).
Proof.
  unfold Spec.after_cell, place_cell.
  destruct (l =? 1)%Z; [|destruct (l =? 2)%Z]; reflexivity.
Qed.

Lemma cell_width_settle w h st : cell_width geo w (settle h st) = cell_width geo w st.
Proof. unfold cell_width. rewrite settle_x. reflexivity. Qed.

Lemma cell_width_fixed w st : Qeq_bool w 0 = false -> cell_width geo w st = w.
Proof. unfold cell_width. intros ->. reflexivity. Qed.

Lemma after_cell_x w h txt border a fill st :
  x (after_cell w h txt border 0 a fill st) = x st + cell_width geo w st.
Proof.
  unfold Spec.after_cell, place_cell. cbn [Z.eqb].
  rewrite x_with_x, cell_width_settle, settle_x. reflexivity.
Qed.

(** *** Paragraphs *)

Lemma advance_page h n st : (page st <= page (advance h n st))%nat.
Proof.
  revert st. induction n as [|n IH]; intros st; simpl; [lia|].
  etransitivity; [|apply IH]. simpl. apply settle_page.
Qed.

Lemma advance_gs h n st : gs (advance h n st) = gs st.
Proof.
  revert st. induction n as [|n IH]; intros st; simpl; [reflexivity|].
  rewrite IH. simpl. apply settle_gs.
Qed.

Lemma advance_section h n st : section st = Body -> section (advance h n st) = Body.
Proof.
  revert st. induction n as [|n IH]; intros st Hs; simpl; [exact Hs|].
  apply IH. simpl. apply settle_section, Hs.
Qed.

Lemma advance_trigger h n st :
  page_break_trigger (advance h n st) = page_break_trigger st.
Proof.
  revert st. induction n as [|n IH]; intros st; simpl; [reflexivity|].
  rewrite IH. simpl. apply settle_trigger.
Qed.

Lemma advance_auto h n st : auto_page_break (advance h n st) = auto_page_break st.
Proof.
  revert st. induction n as [|n IH]; intros st; simpl; [reflexivity|].
  rewrite IH. simpl. apply settle_auto.
Qed.

Lemma advance_body h n st : body_of (canvas (advance h n st)) = body_of (canvas st).
Proof.
  revert st. induction n as [|n IH]; intros st; simpl; [reflexivity|].
  rewrite IH. simpl. apply settle_body.
Qed.

Lemma advance_x h n st : x (advance h n st) = x st.
Proof.
  revert st. induction n as [|n IH]; intros st; simpl; [reflexivity|].
  rewrite IH. simpl. apply settle_x.
Qed.

Lemma after_multi_cell_x w h txt fill st :
  x (after_multi_cell w h txt fill st) = x st + cell_width geo w st.
Proof.
  unfold Spec.after_multi_cell. cbv zeta. rewrite x_with_x, advance_x.
  unfold place_para. rewrite x_with_y, x_with_canvas, settle_x. reflexivity.
Qed.

Lemma after_multi_cell_open w h txt fill st :
  (0 < page st)%nat -> (0 < page (after_multi_cell w h txt fill st))%nat.
Proof.
  intros Hp. unfold Spec.after_multi_cell. simpl.
  eapply Nat.lt_le_trans; [|apply advance_page]. simpl.
  pose proof (settle_page h st). lia.
Qed.

Lemma after_multi_cell_gs w h txt fill st :
  gs (after_multi_cell w h txt fill st) = gs st.
Proof.
  unfold Spec.after_multi_cell. simpl. rewrite advance_gs. simpl. apply settle_gs.
Qed.

Lemma after_multi_cell_section w h txt fill st :
  section st = Body -> section (after_multi_cell w h txt fill st) = Body.
Proof.
  intros Hs. unfold Spec.after_multi_cell. simpl. apply advance_section. simpl.
  apply settle_section, Hs.
Qed.

Lemma after_multi_cell_trigger w h txt fill st :
  page_break_trigger (after_multi_cell w h txt fill st) = page_break_trigger st.
Proof.
  unfold Spec.after_multi_cell. simpl. rewrite advance_trigger. simpl.
  apply settle_trigger.
Qed.

Lemma after_multi_cell_auto w h txt fill st :
  auto_page_break (after_multi_cell w h txt fill st) = auto_page_break st.
Proof.
  unfold Spec.after_multi_cell. simpl. rewrite advance_auto. simpl.
  apply settle_auto.
Qed.

Lemma after_multi_cell_body w h txt fill st :
  section st = Body ->
  body_of (canvas (after_multi_cell w h txt fill st))
  = body_of (canvas st) ++ [para_entry geo line_count w h txt fill st].
Proof.
  intros Hs. unfold Spec.after_multi_cell. simpl. rewrite advance_body. simpl.
  rewrite body_of_app, settle_body. unfold Spec.para_entry. simpl.
  unfold is_body. simpl. rewrite (settle_section h st Hs). reflexivity.
Qed.

Lemma after_cell_body w h txt border l a fill st :
  section st = Body ->
  body_of (canvas (after_cell w h txt border l a fill st))
  = body_of (canvas st) ++ [cell_entry geo w h txt border a fill st].
Proof.
  intros Hs. rewrite after_cell_canvas, body_of_app, settle_body.
  unfold Spec.cell_entry. simpl. unfold is_body. simpl.
  rewrite (settle_section _ st Hs). reflexivity.
Qed.

Ltac open_page :=
  repeat first [ assumption
               | rewrite page_with_x | rewrite page_with_y | rewrite page_with_lasth
               | rewrite page_with_gs | rewrite page_with_canvas
               | apply after_cell_open
               | apply after_multi_cell_open ].

(** A paragraph of a fixed width of more than the two cell margins has
    room. *)
Lemma room_for w txt st :
  Qeq_bool w 0 = false -> Qle_bool (w - 2 * c_margin) 0 = false ->
  no_room (cell_width geo w st) txt = false.
Proof.
  intros Hw Hr. unfold no_room, cell_width. rewrite Hw, Hr. apply andb_false_r.
Qed.

Ltac finish :=
  lazymatch goal with
  | |- cell _ _ _ _ _ _ _ _ _ = _ => apply cell_ok; open_page
  | |- multi_cell _ _ _ _ _ _ _ = _ =>
      apply multi_cell_ok; [open_page | apply room_for; reflexivity]
  | |- line _ _ _ _ _ = _ => apply line_ok; open_page
  | |- rect _ _ _ _ _ _ = _ => apply rect_ok; open_page
  | |- _ => reflexivity
  end.

Ltac step := erewrite bind_eq by finish.

Ltac run_all := repeat step; finish.

Lemma rules_of_body c : filter is_body_rule c = filter is_body_rule (body_of c).
Proof.
  induction c as [|e c IH]; [reflexivity|].
  unfold body_of in *. simpl. rewrite IH.
  destruct e as [p o q]. unfold is_body_rule at 1 3, is_body. simpl.
  destruct o; simpl; reflexivity.
Qed.

Lemma will_page_break_gs h g st :
  will_page_break geo h (with_gs g st) = will_page_break geo h st.
Proof. reflexivity. Qed.

Lemma rule_cell_entry w h txt border a fill st :
  is_body_rule (cell_entry geo w h txt border a fill st) = false.
Proof.
  unfold is_body_rule, Spec.cell_entry. simpl.
  destruct (section _); reflexivity.
Qed.

(** The body of [chapter_title] for a cell of height [h] followed by a
    gap: the cursor lands [h] plus the gap below the top of the cell. *)
Lemma title_cursor h title st g :
  (0 < page st)%nat ->
  y (after_cell 0 (Some h) title false 1 AlignL false (with_gs g st))
  = (if will_page_break geo h st then t_margin geo + 8 else y st) + h.
Proof.
  intros Hp. rewrite after_cell_y. simpl. rewrite settle_y by exact Hp.
  reflexivity.
Qed.

(** C5: the cursor advance of a title depends on the level alone, it is
    17 for level 1, 12 for level 2 and 9 for any other level, measured
    from the top edge of the title, and the accent rule is drawn for
    level 1 only. *)
Theorem chapter_title_advance title level st :
  (0 < page st)%nat -> section st = Body ->
  exists st',
    chapter_title geo title level st = Ok tt st' /\
    y st' == title_top geo level st + title_advance level /\
    title_advance 3 < title_advance 2 < title_advance 1 /\
    map e_prim (filter is_body_rule (canvas st'))
    = map e_prim (filter is_body_rule (canvas st))
      ++ (if (level =? 1)%Z
          then [Line 15 (title_top geo level st + 12) 195
                     (title_top geo level st + 12) (233, 69, 96)%Z (1 # 2)]
          else []).
Proof.
  intros Hp Hs. unfold chapter_title, title_top, title_advance, title_height.
  destruct (level =? 1)%Z; [|destruct (level =? 2)%Z];
    (eexists; split; [run_all|]);
    cbn [y with_y with_x with_gs with_canvas];
    rewrite !title_cursor, !will_page_break_gs by exact Hp;
    cbn [y with_gs];
    (split; [ring|]); (split; [split; reflexivity|]);
    rewrite (rules_of_body (canvas _)), (rules_of_body (canvas st));
    cbn [canvas with_y with_x with_gs with_canvas section page gs];
    rewrite ?body_of_app, after_cell_body by exact Hs;
    rewrite ?after_cell_section by exact Hs;
    cbn [canvas with_gs body_of filter is_body e_origin];
    rewrite !filter_app, !map_app; cbn [filter map app];
    rewrite rule_cell_entry; cbn [map app is_body_rule e_origin e_prim];
    rewrite ?app_nil_r; reflexivity.
Qed.

(** *** Bullet lists *)

Ltac in_body :=
  repeat first [ assumption
               | rewrite section_with_x | rewrite section_with_y
               | rewrite section_with_lasth | rewrite section_with_gs
               | rewrite section_with_canvas
               | apply after_cell_section
               | apply after_multi_cell_section ].

Ltac frame :=
  repeat first [ progress autorewrite with surface
               | rewrite after_multi_cell_body by in_body
               | rewrite after_cell_body by in_body
               | rewrite after_multi_cell_trigger
               | rewrite after_cell_trigger
               | rewrite after_multi_cell_auto
               | rewrite after_cell_auto
               | rewrite after_multi_cell_gs
               | rewrite after_cell_gs ].

Lemma Qeq_bool_refl q : Qeq_bool q q = true.
Proof. apply Qeq_bool_iff. reflexivity. Qed.

Lemma run_of_cell_entry w h txt border a fill st :
  section st = Body ->
  run_of (cell_entry geo w h txt border a fill st)
  = [CellRun txt (style (cur_font (gs st)))].
Proof.
  intros Hs. unfold run_of, Spec.cell_entry. simpl.
  rewrite (settle_section _ st Hs), settle_gs. reflexivity.
Qed.

Lemma run_of_para_entry w h txt fill st :
  section st = Body ->
  run_of (para_entry geo line_count w h txt fill st)
  = [ParaRun txt (style (cur_font (gs st)))].
Proof.
  intros Hs. unfold run_of, Spec.para_entry. simpl.
  rewrite (settle_section _ st Hs), settle_gs. reflexivity.
Qed.

Lemma bold_cell_entry w h txt border a fill st :
  section st = Body ->
  is_bold_cell (cell_entry geo w h txt border a fill st)
  = match style (cur_font (gs st)) with Bold => true | _ => false end.
Proof.
  intros Hs. unfold is_bold_cell, Spec.cell_entry. simpl.
  rewrite (settle_section _ st Hs), settle_gs. reflexivity.
Qed.

Lemma bold_para_entry w h txt fill st :
  is_bold_cell (para_entry geo line_count w h txt fill st) = false.
Proof.
  unfold is_bold_cell, Spec.para_entry. simpl. destruct (section _); reflexivity.
Qed.

(** A paragraph that follows a cell with [ln = 0] and of the same height
    starts where the cell ends. *)
Lemma continues_after_cell w h txt border a fill st g wp txtp fillp :
  (0 < page st)%nat -> section st = Body ->
  t_margin geo + 8 + h <= page_break_trigger st ->
  style (cur_font g) = Regular ->
  continues
    (cell_entry geo w (Some h) txt border a fill st)
    (para_entry geo line_count wp h txtp fillp
       (with_gs g (after_cell w (Some h) txt border 0 a fill st)))
  = true.
Proof.
  intros Hp Hs Hroom Hg.
  assert (E : settle h (with_gs g (after_cell w (Some h) txt border 0 a fill st))
              = with_gs g (after_cell w (Some h) txt border 0 a fill st)).
  { apply settle_fits. rewrite will_page_break_gs.
    rewrite <- (settle_settled h st Hp Hroom).
    apply will_page_break_ext; reflexivity. }
  unfold continues, Spec.para_entry, Spec.cell_entry. cbn zeta.
  rewrite E. cbn [e_prim e_page is_body e_origin page x y section with_gs gs
                  cur_font cell_height].
  unfold Spec.after_cell, place_cell. cbn [Z.eqb cell_height].
  cbn [page x y section with_x with_lasth with_canvas].
  rewrite (settle_section _ st Hs), Nat.eqb_refl, !Qeq_bool_refl, Hg.
  reflexivity.
Qed.

Lemma labels_continue_app a b :
  labels_continue a = true -> labels_continue b = true ->
  labels_continue (a ++ b) = true.
Proof.
  induction a as [|e1 r IH]; intros Ha Hb; [exact Hb|].
  simpl in *. apply andb_true_iff in Ha as [H1 H2].
  rewrite (IH H2 Hb), andb_true_r.
  destruct (is_bold_cell e1); [|reflexivity].
  destruct r; [discriminate | exact H1].
Qed.

Lemma body_runs_app a b : body_runs (a ++ b) = body_runs a ++ body_runs b.
Proof. apply flat_map_app. Qed.

Lemma body_runs_one e : body_runs [e] = run_of e.
Proof. unfold body_runs. simpl. apply app_nil_r. Qed.

Lemma labels_of_bold_item e1 e2 e3 e4 :
  is_bold_cell e1 = false -> is_bold_cell e2 = false ->
  continues e3 e4 = true -> is_bold_cell e4 = false ->
  labels_continue ([e1] ++ [e2] ++ [e3] ++ [e4]) = true.
Proof.
  intros H1 H2 H3 H4. simpl. rewrite H1, H2, H3, H4.
  destruct (is_bold_cell e3); reflexivity.
Qed.

Lemma labels_of_plain_item e1 e2 e3 :
  is_bold_cell e1 = false -> is_bold_cell e2 = false -> is_bold_cell e3 = false ->
  labels_continue ([e1] ++ [e2] ++ [e3]) = true.
Proof. intros H1 H2 H3. simpl. rewrite H1, H2, H3. reflexivity. Qed.

(** *** The room left for the paragraph of a bullet *)

Lemma room_to_margin txt st :
  no_room (cell_width geo 0 st) txt = no_room (page_w geo - r_margin geo - x st) txt.
Proof. reflexivity. Qed.

(** Where the paragraph starts behind a label, and behind the glyph. *)
Lemma label_end_x st g1 g2 W h0 t1 t2 t3 :
  x (with_gs g2 (after_cell W (Some 6) t3 false 0 AlignL false
       (with_gs g1 (after_cell 5 (Some 6) t2 false 0 AlignL false
          (after_cell 5 h0 t1 false 0 AlignL false st)))))
  = x st + 5 + 5
    + (if Qeq_bool W 0 then page_w geo - r_margin geo - (x st + 5 + 5) else W).
Proof.
  rewrite x_with_gs, after_cell_x. unfold cell_width at 1.
  rewrite x_with_gs, !after_cell_x, !(cell_width_fixed 5) by reflexivity.
  reflexivity.
Qed.

Lemma glyph_end_x st h0 t1 t2 :
  x (after_cell 5 (Some 6) t2 false 0 AlignL false
       (after_cell 5 h0 t1 false 0 AlignL false st))
  = x st + 5 + 5.
Proof. rewrite !after_cell_x, !(cell_width_fixed 5) by reflexivity. reflexivity. Qed.

(** A paragraph up to the right margin ends there. *)
Lemma right_edge st : page_w geo - r_margin geo <= x st + cell_width geo 0 st.
Proof.
  unfold cell_width. change (Qeq_bool 0 0) with true. cbv iota.
  generalize (x st) (page_w geo - r_margin geo). intros a b. lra.
Qed.

Lemma glyphs_have_room f w txt :
  glyphs_fit string_width f w txt = true -> no_room w txt = false.
Proof.
  intros H. unfold no_room. destruct (has_ink txt) eqn:Hink; [|reflexivity].
  unfold has_ink in Hink. apply existsb_exists in Hink as (c & Hin & Hc).
  unfold glyphs_fit in H. rewrite forallb_forall in H. specialize (H c Hin).
  rewrite Hc in H. cbn [negb orb] in H. apply andb_true_iff in H as [H0 H1].
  apply Qltb_lt in H0. apply Qle_bool_iff in H1. cbn [andb].
  destruct (Qle_bool (w - 2 * c_margin) 0) eqn:E; [|reflexivity].
  apply Qle_bool_iff in E. lra.
Qed.

(** An item with a separator, in bold-prefix mode, with room for its
    remainder. *)
Lemma bullet_item_bold item label rest st :
  Py.partition ":" item = Some (label, rest) ->
  (0 < page st)%nat -> section st = Body ->
  no_room (page_w geo - r_margin geo
           - (x st + 5 + 5 + label_width geo string_width label (x st + 5 + 5)))
          rest = false ->
  exists st' added,
    bullet_item geo string_width line_count true item st = Ok tt st' /\
    extends st st' added /\
    cur_font (gs st') = list_font /\
    text_color (gs st') = text_color (gs st) /\
    body_runs added
    = [CellRun "" (style (cur_font (gs st)));
       CellRun bullet (style (cur_font (gs st)));
       CellRun (label ++ ":")%string Bold; ParaRun rest Regular] /\
    (t_margin geo + 8 + 6 <= page_break_trigger st ->
     style (cur_font (gs st)) = Regular ->
     labels_continue added = true) /\
    page_w geo - r_margin geo <= x st'.
Proof.
  intros Hpart Hp Hs Hroom. unfold bullet_item.
  assert (Hc : Py.contains ":" item = true).
  { destruct (Py.contains ":" item) eqn:E; [reflexivity|].
    rewrite (PyFacts.partition_none _ _ E) in Hpart. discriminate. }
  rewrite Hc, (PyFacts.split1_parts _ _ _ _ Hpart). cbn [andb].
  eexists. eexists. split.
  { repeat step. apply multi_cell_ok; [open_page|].
    rewrite room_to_margin, label_end_x. exact Hroom. }
  split; [|split; [|split; [|split; [|split]]]].
  - unfold extends. split; [open_page|]. split; [in_body|].
    split; [frame; reflexivity|]. split; [frame; reflexivity|].
    frame. rewrite <- !app_assoc. reflexivity.
  - frame. reflexivity.
  - frame. reflexivity.
  - rewrite !body_runs_app, !body_runs_one.
    rewrite run_of_para_entry, !run_of_cell_entry by in_body.
    frame. reflexivity.
  - intros Hroom' Hreg. apply labels_of_bold_item.
    + rewrite bold_cell_entry by in_body. rewrite Hreg. reflexivity.
    + rewrite bold_cell_entry by in_body. frame. rewrite Hreg. reflexivity.
    + apply continues_after_cell;
        [open_page | in_body | frame; exact Hroom' | reflexivity].
    + apply bold_para_entry.
  - rewrite after_multi_cell_x. apply right_edge.
Qed.

(** The same item without room: the indent, the glyph and the label are
    drawn, then the paragraph is refused. *)
Lemma bullet_item_bold_stops item label rest st :
  Py.partition ":" item = Some (label, rest) ->
  (0 < page st)%nat -> section st = Body ->
  no_room (page_w geo - r_margin geo
           - (x st + 5 + 5 + label_width geo string_width label (x st + 5 + 5)))
          rest = true ->
  exists st', bullet_item geo string_width line_count true item st = Raise no_space st'.
Proof.
  intros Hpart Hp Hs Hroom. unfold bullet_item.
  assert (Hc : Py.contains ":" item = true).
  { destruct (Py.contains ":" item) eqn:E; [reflexivity|].
    rewrite (PyFacts.partition_none _ _ E) in Hpart. discriminate. }
  rewrite Hc, (PyFacts.split1_parts _ _ _ _ Hpart). cbn [andb].
  eexists. repeat step. apply multi_cell_no_room; [open_page|].
  rewrite room_to_margin, label_end_x. exact Hroom.
Qed.

(** An item drawn whole, with room. *)
Lemma bullet_item_plain bold_prefix item st :
  bold_prefix && Py.contains ":" item = false ->
  (0 < page st)%nat -> section st = Body ->
  no_room (page_w geo - r_margin geo - (x st + 5 + 5)) item = false ->
  exists st' added,
    bullet_item geo string_width line_count bold_prefix item st = Ok tt st' /\
    extends st st' added /\
    gs st' = gs st /\
    body_runs added
    = [CellRun "" (style (cur_font (gs st)));
       CellRun bullet (style (cur_font (gs st)));
       ParaRun item (style (cur_font (gs st)))] /\
    (style (cur_font (gs st)) = Regular -> labels_continue added = true) /\
    page_w geo - r_margin geo <= x st'.
Proof.
  intros Hb Hp Hs Hroom. unfold bullet_item. rewrite Hb.
  eexists. eexists. split.
  { repeat step. apply multi_cell_ok; [open_page|].
    rewrite room_to_margin, glyph_end_x. exact Hroom. }
  split; [|split; [|split; [|split]]].
  - unfold extends. split; [open_page|]. split; [in_body|].
    split; [frame; reflexivity|]. split; [frame; reflexivity|].
    frame. rewrite <- !app_assoc. reflexivity.
  - frame. reflexivity.
  - rewrite !body_runs_app, !body_runs_one.
    rewrite run_of_para_entry, !run_of_cell_entry by in_body.
    frame. reflexivity.
  - intros Hreg. apply labels_of_plain_item.
    + rewrite bold_cell_entry by in_body. rewrite Hreg. reflexivity.
    + rewrite bold_cell_entry by in_body. frame. rewrite Hreg. reflexivity.
    + apply bold_para_entry.
  - rewrite after_multi_cell_x. apply right_edge.
Qed.

Lemma bullet_item_plain_stops bold_prefix item st :
  bold_prefix && Py.contains ":" item = false ->
  (0 < page st)%nat -> section st = Body ->
  no_room (page_w geo - r_margin geo - (x st + 5 + 5)) item = true ->
  exists st',
    bullet_item geo string_width line_count bold_prefix item st = Raise no_space st'.
Proof.
  intros Hb Hp Hs Hroom. unfold bullet_item. rewrite Hb.
  eexists. repeat step. apply multi_cell_no_room; [open_page|].
  rewrite room_to_margin, glyph_end_x. exact Hroom.
Qed.

Lemma extends_refl st :
  (0 < page st)%nat -> section st = Body -> extends st st [].
Proof.
  intros Hp Hs. unfold extends. rewrite app_nil_r. auto.
Qed.

Lemma extends_trans st1 st2 st3 a b :
  extends st1 st2 a -> extends st2 st3 b -> extends st1 st3 (a ++ b).
Proof.
  unfold extends. intros (_ & _ & T1 & A1 & B1) (P2 & S2 & T2 & A2 & B2).
  rewrite T2, A2, B2, B1, app_assoc. auto.
Qed.

(** One item of the loop of [bullet_list], in the list font: it is drawn
    when its paragraph has room and refused when it has none. *)
Lemma bullet_item_cases bold_prefix item st :
  (0 < page st)%nat -> section st = Body ->
  cur_font (gs st) = list_font ->
  (item_fits geo string_width bold_prefix item st = true /\
   exists st' added,
     bullet_item geo string_width line_count bold_prefix item st = Ok tt st' /\
     extends st st' added /\
     cur_font (gs st') = list_font /\
     body_runs added = item_runs bold_prefix item /\
     (t_margin geo + 8 + 6 <= page_break_trigger st ->
      labels_continue added = true) /\
     page_w geo - r_margin geo <= x st') \/
  (item_fits geo string_width bold_prefix item st = false /\
   exists st',
     bullet_item geo string_width line_count bold_prefix item st
     = Raise no_space st').
Proof.
  intros Hp Hs Hf.
  assert (Hreg : style (cur_font (gs st)) = Regular) by (rewrite Hf; reflexivity).
  unfold item_fits, item_room, item_text, item_runs.
  destruct (bold_prefix && Py.contains ":" item) eqn:Hb.
  - apply andb_true_iff in Hb as [-> Hc].
    destruct (PyFacts.partition_some _ _ Hc) as (label & rest & Hpart).
    rewrite Hpart.
    destruct (no_room
                (page_w geo - r_margin geo
                 - (x st + 5 + 5
                    + label_width geo string_width label (x st + 5 + 5)))
                rest) eqn:Hroom.
    + right. split; [reflexivity|].
      exact (bullet_item_bold_stops item label rest st Hpart Hp Hs Hroom).
    + left. split; [reflexivity|].
      destruct (bullet_item_bold item label rest st Hpart Hp Hs Hroom)
        as (s1 & a1 & R & E & F & _ & B & L & X).
      exists s1, a1. rewrite B, Hreg.
      split; [exact R|]. split; [exact E|]. split; [exact F|].
      split; [reflexivity|]. split; [exact (fun H => L H Hreg) | exact X].
  - destruct (no_room (page_w geo - r_margin geo - (x st + 5 + 5)) item) eqn:Hroom.
    + right. split; [reflexivity|].
      exact (bullet_item_plain_stops bold_prefix item st Hb Hp Hs Hroom).
    + left. split; [reflexivity|].
      destruct (bullet_item_plain bold_prefix item st Hb Hp Hs Hroom)
        as (s1 & a1 & R & E & G & B & L & X).
      exists s1, a1. rewrite B, Hreg, G.
      split; [exact R|]. split; [exact E|]. split; [exact Hf|].
      split; [reflexivity|]. split; [exact (fun _ => L Hreg) | exact X].
Qed.

(** The loop of [bullet_list]: it is drawn to its end, every item
    starting in the regular list font, or it stops at an item without
    room. *)
Lemma bullet_items_spec bold_prefix items st :
  (0 < page st)%nat -> section st = Body ->
  cur_font (gs st) = list_font ->
  (exists st' added,
     for_each items (bullet_item geo string_width line_count bold_prefix) st
     = Ok tt st' /\
     extends st st' added /\
     cur_font (gs st') = list_font /\
     body_runs added = flat_map (item_runs bold_prefix) items /\
     (t_margin geo + 8 + 6 <= page_break_trigger st ->
      labels_continue added = true)) \/
  (exists st',
     for_each items (bullet_item geo string_width line_count bold_prefix) st
     = Raise no_space st').
Proof.
  revert st. induction items as [|item items IH]; intros st Hp Hs Hf.
  - left. exists st, []. split; [reflexivity|].
    split; [apply extends_refl; assumption|]. split; [assumption|].
    split; reflexivity.
  - destruct (bullet_item_cases bold_prefix item st Hp Hs Hf)
      as [(_ & s1 & a1 & R1 & E1 & F1 & B1 & L1 & _) | (_ & s1 & R1)].
    + pose proof E1 as (P1 & S1 & T1 & _).
      destruct (IH s1 P1 S1 F1) as [(s2 & a2 & R2 & E2 & F2 & B2 & L2) | (s2 & R2)].
      * left. exists s2, (a1 ++ a2). split; [|split; [|split; [|split]]].
        -- simpl. rewrite (bind_eq _ _ _ _ _ R1). exact R2.
        -- exact (extends_trans _ _ _ _ _ E1 E2).
        -- exact F2.
        -- rewrite body_runs_app, B1, B2. reflexivity.
        -- intros Hroom. apply labels_continue_app; [apply L1, Hroom|].
           apply L2. rewrite T1. exact Hroom.
      * right. exists s2. simpl. rewrite (bind_eq _ _ _ _ _ R1). exact R2.
    + right. exists s1. simpl. apply bind_raise_eq. exact R1.
Qed.

(** C6: whenever a bullet list is drawn to its end, each item with a
    separator drawn in bold-prefix mode gives a bold label, up to and
    including the separator, and then the remainder in regular weight,
    starting on the same page and line where the label ends; any other
    item is one regular paragraph after the bullet.  A list of one item
    is drawn to its end when the glyphs of its paragraph fit in the
    width that is left behind the indent, the bullet and the label. *)
Theorem bullet_list_weights items bold_prefix st :
  (0 < page st)%nat -> section st = Body ->
  t_margin geo + 8 + 6 <= page_break_trigger st ->
  (forall st',
     bullet_list geo string_width line_count items bold_prefix st = Ok tt st' ->
     exists added,
       body_of (canvas st') = body_of (canvas st) ++ added /\
       body_runs added = flat_map (item_runs bold_prefix) items /\
       labels_continue added = true) /\
  ((length items <= 1)%nat ->
   Forall (fun item =>
             glyphs_fit string_width list_font
               (item_room geo string_width bold_prefix item st)
               (item_text bold_prefix item) = true) items ->
   returned (bullet_list geo string_width line_count items bold_prefix st) = true).
Proof.
  intros Hp Hs Hroom.
  set (s0 := with_gs (with_text_color (51, 51, 51)%Z
                        (with_font list_font (gs st))) st).
  assert (E0 : bullet_list geo string_width line_count items bold_prefix st
               = bind (for_each items
                         (bullet_item geo string_width line_count bold_prefix))
                      (fun _ => ln geo (Some 2)) s0).
  { unfold bullet_list. do 2 step. reflexivity. }
  destruct (bullet_items_spec bold_prefix items s0)
    as [(s1 & added & R & E & _ & B & L) | (s1 & R)]; auto.
  - split.
    + intros st' Hrun. rewrite E0, (bind_eq _ _ _ _ _ R) in Hrun.
      injection Hrun as <-. exists added.
      split; [|split; [exact B | apply L; exact Hroom]].
      destruct E as (_ & _ & _ & _ & E). exact E.
    + intros _ _. rewrite E0, (bind_eq _ _ _ _ _ R). reflexivity.
  - split.
    + intros st' Hrun. rewrite E0, (bind_raise_eq _ _ _ _ _ R) in Hrun.
      discriminate.
    + intros Hlen Hfit. exfalso.
      destruct items as [|item [|item' items]]; [| |simpl in Hlen; lia].
      * discriminate.
      * inversion Hfit as [|? ? Hitem _]; subst.
        apply glyphs_have_room in Hitem.
        destruct (bullet_item_cases bold_prefix item s0)
          as [(_ & s2 & a2 & R2 & _) | (Hno & _)]; auto.
        -- simpl in R. rewrite (bind_eq _ _ _ _ _ R2) in R. discriminate.
        -- unfold item_fits in Hno.
           change (item_room geo string_width bold_prefix item s0)
             with (item_room geo string_width bold_prefix item st) in Hno.
           rewrite Hitem in Hno. discriminate.
Qed.

(** C10: with several separators the item is split at the first one only.
    The label is the text before the first separator, and the remainder,
    drawn in regular weight, keeps all the later ones.  The item is
    drawn where the glyphs of the remainder fit in the width that is
    left behind the label. *)
Theorem bullet_item_first_separator item st :
  (0 < page st)%nat -> section st = Body ->
  (1 < Py.count ":" item)%nat ->
  glyphs_fit string_width list_font (item_room geo string_width true item st)
             (item_text true item) = true ->
  exists label rest st' added,
    item = (label ++ ":" ++ rest)%string /\
    Py.contains ":" label = false /\
    Py.count ":" rest = (Py.count ":" item - 1)%nat /\
    Py.contains ":" rest = true /\
    bullet_item geo string_width line_count true item st = Ok tt st' /\
    body_of (canvas st') = body_of (canvas st) ++ added /\
    body_runs added
    = [CellRun "" (style (cur_font (gs st)));
       CellRun bullet (style (cur_font (gs st)));
       CellRun (label ++ ":")%string Bold; ParaRun rest Regular].
Proof.
  intros Hp Hs Hcount Hfit.
  assert (Hc : Py.contains ":" item = true) by (apply PyFacts.count_positive; lia).
  destruct (PyFacts.partition_some _ _ Hc) as (label & rest & Hpart).
  destruct (PyFacts.partition_spec _ _ _ _ Hpart) as [Hitem Hlabel].
  pose proof (PyFacts.partition_count _ _ _ _ Hpart) as Hn.
  apply glyphs_have_room in Hfit.
  unfold item_room, item_text in Hfit. rewrite Hc, Hpart in Hfit. cbn [andb] in Hfit.
  destruct (bullet_item_bold item label rest st Hpart Hp Hs Hfit)
    as (st' & added & R & E & _ & _ & B & _).
  exists label, rest, st', added.
  split; [exact Hitem|]. split; [exact Hlabel|].
  split; [lia|]. split; [apply PyFacts.count_positive; lia|].
  split; [exact R|]. split; [|exact B].
  destruct E as (_ & _ & _ & _ & E). exact E.
Qed.

(** *** Callout boxes *)

Lemma prim_of_one p o q : map e_prim [mkEntry p o q] = [q].
Proof. reflexivity. Qed.

Lemma body_of_one p q : body_of [mkEntry p Body q] = [mkEntry p Body q].
Proof. reflexivity. Qed.


Lemma fits h st :
  y st + h <= page_break_trigger st -> will_page_break geo h st = false.
Proof.
  intros H. unfold will_page_break.
  replace (Qltb (page_break_trigger st) (y st + h)) with false.
  - rewrite andb_false_r. reflexivity.
  - symmetry. apply Qltb_ge. exact H.
Qed.

Lemma cell_entry_fits w h txt border a fill st :
  will_page_break geo (cell_height h st) st = false ->
  cell_entry geo w h txt border a fill st
  = mkEntry (page st) (section st)
      (Text (x st) (y st) (cell_width geo w st) (cell_height h st) txt
            (cur_font (gs st)) (text_color (gs st)) border
            (if fill then Some (fill_color (gs st)) else None) a).
Proof.
  intros H. unfold Spec.cell_entry. rewrite (settle_fits _ _ H). reflexivity.
Qed.

Lemma para_entry_fits w h txt fill st :
  will_page_break geo h st = false ->
  para_entry geo line_count w h txt fill st
  = mkEntry (page st) (section st)
      (Para (x st) (y st) (cell_width geo w st) h txt
            (para_lines geo line_count w txt st)
            (cur_font (gs st)) (text_color (gs st))
            (if fill then Some (fill_color (gs st)) else None)).
Proof.
  intros H. unfold Spec.para_entry. rewrite (settle_fits _ _ H). reflexivity.
Qed.

Lemma nonneg_ordinate v e : 0 <= v -> (if Qle_bool 0 v then v else e) = v.
Proof. intros H. rewrite (proj2 (Qle_bool_iff 0 v) H). reflexivity. Qed.

(** C7: the callout box is a rule and a rectangle of height 25 at the
    cursor, whatever the body text; the body is one paragraph of line
    height 5 that starts 10 below the top, with as many lines as the text
    needs, and the cursor ends 28 below the top in every case. *)
Theorem key_finding_box_fixed_height title content st :
  (0 < page st)%nat -> section st = Body ->
  0 <= y st -> y st + 15 <= page_break_trigger st ->
  exists st',
    key_finding_box geo line_count title content st = Ok tt st' /\
    y st' = y st + 28 /\
    map e_prim (body_of (canvas st'))
    = map e_prim (body_of (canvas st))
      ++ [Line 15 (y st) 15 (y st + 25) (233, 69, 96)%Z 1;
          Rect 17 (y st) 178 25 StyleF (250, 250, 250)%Z;
          Text 20 (y st + 3) (page_w geo - r_margin geo - 20) 6 title
               (mkFont "Arial" Bold 10) (233, 69, 96)%Z false None AlignL;
          Para 20 (y st + 10) 170 5 content
               (Nat.max 1 (line_count (mkFont "Arial" Regular 10) 170 content))
               (mkFont "Arial" Regular 10) (51, 51, 51)%Z None].
Proof.
  intros Hp Hs Hy Hroom. unfold key_finding_box.
  assert (H3 : 0 <= y st + 3) by lra.
  assert (H10 : 0 <= y st + 10) by lra.
  assert (H28 : 0 <= y st + 28) by lra.
  eexists. split; [run_all|].
  rewrite !(nonneg_ordinate _ _ H3), !(nonneg_ordinate _ _ H10),
          !(nonneg_ordinate _ _ H28).
  split; [frame; reflexivity|].
  frame. rewrite cell_entry_fits, para_entry_fits.
  - unfold para_lines, cell_width, cell_height. frame.
    rewrite Hs, !body_of_app, !body_of_one.
    rewrite !map_app, <- !app_assoc, !prim_of_one.
    reflexivity.
  - apply fits. frame. lra.
  - apply fits. frame. unfold cell_height. lra.
Qed.

(** *** Tables *)

Lemma body_cells_app a b : body_cells (a ++ b) = body_cells a ++ body_cells b.
Proof. apply flat_map_app. Qed.

Lemma body_cells_one e : body_cells [e] = cell_of e.
Proof. unfold body_cells. simpl. apply app_nil_r. Qed.

Lemma cell_of_cell_entry w h txt border a fill st :
  section st = Body -> Qeq_bool w 0 = false ->
  cell_of (cell_entry geo w h txt border a fill st) = [(txt, w)].
Proof.
  intros Hs Hw. unfold cell_of, Spec.cell_entry, cell_width. simpl.
  rewrite (settle_section _ st Hs), Hw. reflexivity.
Qed.

Section Rows.

Context {A : Type}.
Variable txt : A -> string.
Variable h : Q.
Variable fill : bool.
Variable ws : list Q.

(** One row of a table: the loop over the cells with their indices. *)
Local Abbreviation row_loop k cells :=
  (for_each (Py.enumerate k cells) (fun '(i, c) =>
     w <- index ws i ;;
     cell geo w (Some h) (txt c) true 0 AlignL fill)).

Lemma row_returns k (cells : list A) st :
  (0 < page st)%nat -> (k + length cells <= length ws)%nat ->
  exists st',
    row_loop k cells st = Ok tt st' /\ (0 < page st')%nat /\
    (section st = Body -> Forall (fun w => Qeq_bool w 0 = false) ws ->
     exists added,
       extends st st' added /\
       body_cells added
       = map (fun '(i, c) => (txt c, nth i ws 0)) (Py.enumerate k cells)).
Proof.
  revert k st. induction cells as [|c r IH]; intros k st Hp Hlen.
  - exists st. split; [reflexivity|]. split; [exact Hp|].
    intros Hs _. exists []. split; [apply extends_refl; assumption | reflexivity].
  - simpl in Hlen.
    destruct (nth_error ws k) as [w|] eqn:Hw;
      [|apply nth_error_None in Hw; lia].
    destruct (IH (S k) (after_cell w (Some h) (txt c) true 0 AlignL fill st))
      as (st' & R & P & B); [open_page | lia |].
    exists st'. split; [|split; [exact P|]].
    + simpl. unfold index. rewrite Hw.
      erewrite bind_eq; [exact R|].
      erewrite bind_eq by reflexivity. apply cell_ok, Hp.
    + intros Hs Hnz. destruct (B (after_cell_section _ _ _ _ _ _ _ _ Hs) Hnz)
        as (added & E & C).
      exists ([cell_entry geo w (Some h) (txt c) true AlignL fill st] ++ added).
      split.
      * refine (extends_trans _ _ _ _ _ _ E). unfold extends.
        split; [open_page|]. split; [in_body|].
        split; [apply after_cell_trigger|]. split; [apply after_cell_auto|].
        apply after_cell_body, Hs.
      * rewrite body_cells_app, body_cells_one, C.
        rewrite cell_of_cell_entry; [|exact Hs|].
        -- simpl. rewrite (nth_error_nth _ _ _ Hw). reflexivity.
        -- rewrite Forall_forall in Hnz. apply Hnz.
           eapply nth_error_In, Hw.
Qed.

Lemma row_raises k (cells : list A) st :
  (0 < page st)%nat -> (k <= length ws < k + length cells)%nat ->
  exists st', row_loop k cells st = Raise Py.IndexError st'.
Proof.
  revert k st. induction cells as [|c r IH]; intros k st Hp Hlen.
  - simpl in Hlen. lia.
  - simpl in Hlen. destruct (nth_error ws k) as [w|] eqn:Hw.
    + assert (k < length ws)%nat by (apply nth_error_Some; congruence).
      destruct (IH (S k) (after_cell w (Some h) (txt c) true 0 AlignL fill st))
        as (st' & R); [open_page | lia |].
      exists st'. simpl. unfold index. rewrite Hw.
      erewrite bind_eq; [exact R|].
      erewrite bind_eq by reflexivity. apply cell_ok, Hp.
    + exists st. simpl. unfold index. rewrite Hw. reflexivity.
Qed.

End Rows.

Lemma extends_ln st st' added v u :
  extends st st' added -> extends st (with_y v (with_x u st')) added.
Proof. unfold extends. autorewrite with surface. auto. Qed.

Lemma extends_from_gs st st' added g :
  extends (with_gs g st) st' added -> extends st st' added.
Proof. unfold extends. autorewrite with surface. auto. Qed.

Section Data.

Variable ws : list Q.

(** The loop over the data rows of [create_table]. *)
Local Abbreviation data_loop data :=
  (for_each data (fun row : list Py.value =>
     for_each (Py.enumerate 0 row) (fun '(i, c) =>
       w <- index ws i ;;
       cell geo w (Some 7) (Py.str c) true 0 AlignL false) ;;
     ln geo None)).

Lemma rows_return data st :
  (0 < page st)%nat -> Forall (fun row => length row <= length ws)%nat data ->
  exists st',
    data_loop data st = Ok tt st' /\ (0 < page st')%nat /\
    (section st = Body -> Forall (fun w => Qeq_bool w 0 = false) ws ->
     exists added,
       extends st st' added /\
       body_cells added
       = flat_map (fun row =>
                     map (fun '(i, c) => (Py.str c, nth i ws 0)) (Py.enumerate 0 row))
                  data).
Proof.
  revert st. induction data as [|row data IH]; intros st Hp Hall.
  - exists st. split; [reflexivity|]. split; [exact Hp|].
    intros Hs _. exists []. split; [apply extends_refl; assumption | reflexivity].
  - inversion Hall as [|? ? Hrow Hrest]; subst.
    destruct (row_returns Py.str 7 false ws 0 row st Hp Hrow) as (s1 & R1 & P1 & B1).
    destruct (IH (with_y (y s1 + lasth s1) (with_x (l_margin geo) s1)))
      as (s2 & R2 & P2 & B2); [open_page | exact Hrest |].
    exists s2. split; [|split; [exact P2|]].
    + simpl. erewrite bind_eq; [exact R2|].
      erewrite bind_eq by exact R1. reflexivity.
    + intros Hs Hnz. destruct (B1 Hs Hnz) as (a1 & E1 & C1).
      pose proof (extends_ln _ _ _ (y s1 + lasth s1) (l_margin geo) E1) as E1'.
      pose proof E1' as (_ & S1 & _).
      destruct (B2 S1 Hnz) as (a2 & E2 & C2).
      exists (a1 ++ a2). split; [exact (extends_trans _ _ _ _ _ E1' E2)|].
      rewrite body_cells_app, C1, C2. reflexivity.
Qed.

Lemma rows_raise data st :
  (0 < page st)%nat -> Exists (fun row => length ws < length row)%nat data ->
  exists st', data_loop data st = Raise Py.IndexError st'.
Proof.
  revert st. induction data as [|row data IH]; intros st Hp Hex.
  - inversion Hex.
  - destruct (le_lt_dec (length row) (length ws)) as [Hrow|Hrow].
    + destruct (row_returns Py.str 7 false ws 0 row st Hp Hrow) as (s1 & R1 & P1 & _).
      destruct (IH (with_y (y s1 + lasth s1) (with_x (l_margin geo) s1)))
        as (s2 & R2); [open_page | inversion Hex; [lia | assumption] |].
      exists s2. simpl. erewrite bind_eq; [exact R2|].
      erewrite bind_eq by exact R1. reflexivity.
    + destruct (row_raises Py.str 7 false ws 0 row st Hp) as (s1 & R1); [lia|].
      exists s1. simpl. unfold bind at 1. unfold bind at 1.
      rewrite R1. reflexivity.
Qed.

End Data.

(** The column widths in force in a call of [create_table]. *)
Lemma create_table_returns headers data col_widths st :
  (0 < page st)%nat ->
  (length headers <= length (widths_of headers col_widths))%nat ->
  Forall (fun row => length row <= length (widths_of headers col_widths))%nat data ->
  exists st',
    create_table geo headers data col_widths st = Ok tt st' /\
    (section st = Body ->
     Forall (fun w => Qeq_bool w 0 = false) (widths_of headers col_widths) ->
     exists added,
       extends st st' added /\
       body_cells added
       = map (fun '(i, c) => (c, nth i (widths_of headers col_widths) 0))
             (Py.enumerate 0 headers)
         ++ flat_map
              (fun row =>
                 map (fun '(i, c) =>
                        (Py.str c, nth i (widths_of headers col_widths) 0))
                     (Py.enumerate 0 row))
              data).
Proof.
  intros Hp Hh Hd. unfold create_table. fold (widths_of headers col_widths).
  set (ws := widths_of headers col_widths) in *.
  set (s0 := with_gs (with_text_color (51, 51, 51)%Z
                        (with_fill_color (248, 249, 250)%Z
                           (with_font (mkFont "Arial" Bold 9) (gs st)))) st).
  destruct (row_returns (fun c : string => c) 8 true ws 0 headers s0)
    as (s1 & R1 & P1 & B1); [exact Hp | exact Hh |].
  set (s1' := with_gs (with_fill_color (255, 255, 255)%Z
                         (with_font (mkFont "Arial" Regular 9)
                                    (gs (with_y (y s1 + lasth s1)
                                                (with_x (l_margin geo) s1)))))
                      (with_y (y s1 + lasth s1) (with_x (l_margin geo) s1))).
  destruct (rows_return ws data s1') as (s2 & R2 & P2 & B2);
    [unfold s1'; open_page | exact Hd |].
  exists (with_y (y s2 + 3) (with_x (l_margin geo) s2)).
  split.
  - do 3 step. erewrite bind_eq by exact R1. do 3 step.
    erewrite bind_eq by exact R2. reflexivity.
  - intros Hs Hnz. destruct (B1 Hs Hnz) as (a1 & E1 & C1).
    assert (E1' : extends s0 s1' a1).
    { revert E1. unfold s1', extends. autorewrite with surface. auto. }
    pose proof E1' as (_ & S1 & _).
    destruct (B2 S1 Hnz) as (a2 & E2 & C2).
    exists (a1 ++ a2). split.
    + apply extends_ln.
      apply (extends_from_gs st s2 (a1 ++ a2)
               (with_text_color (51, 51, 51)%Z
                  (with_fill_color (248, 249, 250)%Z
                     (with_font (mkFont "Arial" Bold 9) (gs st))))).
      exact (extends_trans _ _ _ _ _ E1' E2).
    + rewrite body_cells_app, C1, C2. reflexivity.
Qed.

Lemma create_table_raises headers data col_widths st :
  (0 < page st)%nat ->
  (length (widths_of headers col_widths) < length headers)%nat \/
  Exists (fun row => length (widths_of headers col_widths) < length row)%nat data ->
  exists st', create_table geo headers data col_widths st = Raise Py.IndexError st'.
Proof.
  intros Hp Hbad. unfold create_table. fold (widths_of headers col_widths).
  set (ws := widths_of headers col_widths) in *.
  set (s0 := with_gs (with_text_color (51, 51, 51)%Z
                        (with_fill_color (248, 249, 250)%Z
                           (with_font (mkFont "Arial" Bold 9) (gs st)))) st).
  destruct (le_lt_dec (length headers) (length ws)) as [Hh|Hh].
  - destruct Hbad as [Hbad|Hbad]; [lia|].
    destruct (row_returns (fun c : string => c) 8 true ws 0 headers s0)
      as (s1 & R1 & P1 & _); [exact Hp | exact Hh |].
    set (s1' := with_gs (with_fill_color (255, 255, 255)%Z
                           (with_font (mkFont "Arial" Regular 9)
                                      (gs (with_y (y s1 + lasth s1)
                                                  (with_x (l_margin geo) s1)))))
                        (with_y (y s1 + lasth s1) (with_x (l_margin geo) s1))).
    destruct (rows_raise ws data s1') as (s2 & R2);
      [unfold s1'; open_page | exact Hbad |].
    exists s2. do 3 step. erewrite bind_eq by exact R1. do 3 step.
    apply bind_raise_eq. exact R2.
  - destruct (row_raises (fun c : string => c) 8 true ws 0 headers s0)
      as (s1 & R1); [exact Hp | lia |].
    exists s1. do 3 step. apply bind_raise_eq. exact R1.
Qed.

Lemma nth_repeat_lt (v d : Q) n i : (i < n)%nat -> nth i (repeat v n) d = v.
Proof.
  revert i. induction n as [|n IH]; intros i Hi; [lia|].
  destruct i; simpl; [reflexivity | apply IH; lia].
Qed.

Lemma uniform_row {A} (f : A -> string) (v : Q) n k (l : list A) :
  (k + length l <= n)%nat ->
  map (fun '(i, c) => (f c, nth i (repeat v n) 0)) (Py.enumerate k l)
  = map (fun c => (f c, v)) l.
Proof.
  revert k. induction l as [|c r IH]; intros k Hk; [reflexivity|].
  simpl in *. rewrite nth_repeat_lt by lia. rewrite IH by lia. reflexivity.
Qed.

(** C3 as amended: without column widths every column is 40 wide, in
    the header row and in every data row, whatever the content width
    of the page. *)
Theorem create_table_default_widths headers data st :
  (0 < page st)%nat -> section st = Body ->
  Forall (fun row => length row <= length headers)%nat data ->
  default_col_widths headers = repeat 40 (length headers) /\
  exists st' added,
    create_table geo headers data None st = Ok tt st' /\
    body_of (canvas st') = body_of (canvas st) ++ added /\
    body_cells added
    = map (fun c => (c, 40)) headers
      ++ flat_map (fun row => map (fun c => (Py.str c, 40)) row) data.
Proof.
  intros Hp Hs Hd. split; [reflexivity|].
  assert (Hlen : length (widths_of headers None) = length headers)
    by apply repeat_length.
  destruct (create_table_returns headers data None st Hp) as (st' & R & B).
  - rewrite Hlen. apply Nat.le_refl.
  - rewrite Hlen. exact Hd.
  - assert (Hnz : Forall (fun w => Qeq_bool w 0 = false) (widths_of headers None)).
    { apply Forall_forall. intros w Hw. apply repeat_spec in Hw. subst.
      reflexivity. }
    destruct (B Hs Hnz) as (added & E & C).
    exists st', added. split; [exact R|]. split.
    + destruct E as (_ & _ & _ & _ & E). exact E.
    + rewrite C. unfold widths_of, default_col_widths.
      rewrite uniform_row by (simpl; lia). f_equal.
      clear -Hd. induction Hd as [|row data Hrow Hrest IH]; [reflexivity|].
      simpl. rewrite uniform_row by (simpl; lia). rewrite IH. reflexivity.
Qed.

(** C9 as amended: on an open page [create_table] returns exactly when
    neither the header row nor any data row has more cells than there
    are column widths; otherwise it raises [IndexError].  With default
    widths the header row always fits. *)
Theorem create_table_completes headers data col_widths st :
  (0 < page st)%nat ->
  (returned (create_table geo headers data col_widths st) = true <->
   (length headers <= length (widths_of headers col_widths))%nat /\
   Forall (fun row => length row <= length (widths_of headers col_widths))%nat data)
  /\
  (returned (create_table geo headers data col_widths st) = false ->
   exists st', create_table geo headers data col_widths st = Raise Py.IndexError st')
  /\
  (col_widths = None ->
   (returned (create_table geo headers data col_widths st) = true <->
    Forall (fun row => length row <= length headers)%nat data)).
Proof.
  intros Hp.
  set (ws := widths_of headers col_widths).
  assert (Hdec : ((length headers <= length ws)%nat /\
                  Forall (fun row => length row <= length ws)%nat data) \/
                 ((length ws < length headers)%nat \/
                  Exists (fun row => length ws < length row)%nat data)).
  { destruct (le_lt_dec (length headers) (length ws)) as [Hh|Hh]; [|auto].
    destruct (Forall_Exists_dec (fun row : list Py.value =>
                                   (length row <= length ws)%nat)
                (fun row => le_dec (length row) (length ws)) data) as [Hd|Hd].
    - left. auto.
    - right. right. eapply Exists_impl; [|exact Hd]. simpl. intros. lia. }
  assert (Hiff : returned (create_table geo headers data col_widths st) = true <->
                 (length headers <= length ws)%nat /\
                 Forall (fun row => length row <= length ws)%nat data).
  { destruct Hdec as [[Hh Hd]|Hbad].
    - destruct (create_table_returns headers data col_widths st Hp Hh Hd)
        as (st' & R & _).
      rewrite R. simpl. tauto.
    - destruct (create_table_raises headers data col_widths st Hp Hbad)
        as (st' & R).
      rewrite R. simpl. split; [discriminate|]. intros [Hh Hd].
      destruct Hbad as [Hbad|Hbad]; [fold ws in Hbad; lia|].
      fold ws in Hbad. apply Exists_exists in Hbad as (row & Hin & Hlt).
      rewrite Forall_forall in Hd. specialize (Hd row Hin). lia. }
  split; [exact Hiff|]. split.
  - intros Hret. destruct Hdec as [[Hh Hd]|Hbad].
    + pose proof (proj2 Hiff (conj Hh Hd)) as Ht. rewrite Ht in Hret.
      discriminate.
    + exact (create_table_raises headers data col_widths st Hp Hbad).
  - intros ->. rewrite Hiff. unfold ws, widths_of, default_col_widths.
    rewrite repeat_length. split; [tauto | auto].
Qed.

End Methods.
End RendererFacts.

(** ** Header and footer on every page but the cover *)

Module ChromeFacts.

Import Surface SloozePDF Spec SurfaceFacts RendererFacts.
Local Open Scope Q_scope.

Lemma has_mark_app o p a b : has_mark o p (a ++ b) = has_mark o p a || has_mark o p b.
Proof. apply existsb_app. Qed.

Lemma has_mark_body o p pg q :
  o <> Body -> has_mark o p [mkEntry pg Body q] = false.
Proof. intros H. unfold has_mark. simpl. destruct o; [congruence | reflexivity..]. Qed.

Section Chrome.

Variable geo : geometry.
Variable string_width : font -> string -> Q.
Variable line_count : font -> Q -> string -> nat.

Local Abbreviation settle := (Spec.settle geo).
Local Abbreviation after_add_page := (Spec.after_add_page geo).
Local Abbreviation chrome_inv := (Spec.chrome_inv).

Ltac bool_lia :=
  apply eq_true_iff_eq;
  repeat first [ rewrite andb_true_iff | rewrite orb_true_iff
               | rewrite negb_true_iff | rewrite Nat.leb_le
               | rewrite Nat.ltb_lt | rewrite Nat.eqb_eq
               | rewrite Nat.eqb_neq | rewrite Nat.leb_gt ];
  intuition (try discriminate; try lia).

Lemma header_marks p st :
  has_mark Header p (footer_mark geo st ++ header_mark geo st)
  = negb (Nat.eqb (page st) 0) && Nat.eqb p (S (page st)).
Proof.
  unfold footer_mark, header_mark, has_mark.
  destruct (Nat.leb (page st) 1), (Nat.eqb (page st) 0);
    cbn [existsb origin_eqb e_origin e_page app andb orb negb]; bool_lia.
Qed.

Lemma footer_marks p st :
  has_mark Footer p (footer_mark geo st ++ header_mark geo st)
  = negb (Nat.leb (page st) 1) && Nat.eqb p (page st).
Proof.
  unfold footer_mark, header_mark, has_mark.
  destruct (Nat.leb (page st) 1), (Nat.eqb (page st) 0);
    cbn [existsb origin_eqb e_origin e_page app andb orb negb]; bool_lia.
Qed.

(** Starting a page keeps the marks in place. *)
Lemma inv_after_add_page st : chrome_inv st -> chrome_inv (after_add_page st).
Proof.
  intros (Hs & Hh & Hf). unfold Spec.chrome_inv, Spec.after_add_page.
  cbn [page canvas section].
  split; [reflexivity|]. split; intros p.
  - rewrite has_mark_app, Hh, header_marks. bool_lia.
  - rewrite has_mark_app, Hf, footer_marks. bool_lia.
Qed.

Lemma inv_ext st st' :
  section st' = section st -> page st' = page st -> canvas st' = canvas st ->
  chrome_inv st -> chrome_inv st'.
Proof. unfold Spec.chrome_inv. intros -> -> ->. auto. Qed.

Lemma inv_settle h st : chrome_inv st -> chrome_inv (settle h st).
Proof.
  intros H. unfold Spec.settle. destruct (will_page_break geo h st); [|exact H].
  apply (inv_ext (after_add_page st)); try reflexivity.
  apply inv_after_add_page, H.
Qed.

(** A drawing call of the body keeps the marks in place. *)
Lemma inv_emit st q :
  chrome_inv st ->
  chrome_inv (with_canvas (canvas st ++ [mkEntry (page st) (section st) q]) st).
Proof.
  intros (Hs & Hh & Hf). unfold Spec.chrome_inv.
  cbn [page canvas section with_canvas]. rewrite Hs.
  split; [reflexivity|]. split; intros p.
  - rewrite has_mark_app, Hh, has_mark_body by discriminate. apply orb_false_r.
  - rewrite has_mark_app, Hf, has_mark_body by discriminate. apply orb_false_r.
Qed.

Lemma inv_after_cell w h txt border l a fill st :
  chrome_inv st -> chrome_inv (Spec.after_cell geo w h txt border l a fill st).
Proof.
  intros H. unfold Spec.after_cell, place_cell.
  pose proof (inv_emit _
    (Text (x (settle (cell_height h st) st)) (y (settle (cell_height h st) st))
          (cell_width geo w (settle (cell_height h st) st)) (cell_height h st) txt
          (cur_font (gs (settle (cell_height h st) st)))
          (text_color (gs (settle (cell_height h st) st))) border
          (if fill then Some (fill_color (gs (settle (cell_height h st) st)))
           else None) a)
    (inv_settle (cell_height h st) st H)) as E.
  destruct (l =? 1)%Z; [|destruct (l =? 2)%Z];
    (eapply inv_ext; [| | |exact E]; reflexivity).
Qed.

Lemma inv_advance h n st : chrome_inv st -> chrome_inv (Spec.advance geo h n st).
Proof.
  revert st. induction n as [|n IH]; intros st H; [exact H|].
  simpl. apply IH.
  apply (inv_ext (settle h st)); try reflexivity. apply inv_settle, H.
Qed.

Lemma inv_after_multi_cell w h txt fill st :
  chrome_inv st -> chrome_inv (Spec.after_multi_cell geo line_count w h txt fill st).
Proof.
  intros H. unfold Spec.after_multi_cell.
  eapply inv_ext; [| | |apply inv_advance]; try reflexivity.
  unfold place_para.
  eapply inv_ext; [| | |apply inv_emit, (inv_settle h st H)]; reflexivity.
Qed.

(** Every program of the renderer keeps the marks in place, whether it
    returns or raises. *)
Lemma client_inv A (m : M pdf A) :
  client geo line_count A m -> forall st, chrome_inv st -> chrome_inv (final (m st)).
Proof.
  induction 1 as [A a | A B m k Hm IHm Hk IHk | A e | A f
                 | fam sty size | r g b | r g b | r g b | w | a mg | v | v | h
                 | x1 y1 x2 y2 | vx vy w h s | w h txt border l a fill
                 | w h txt fill | ]; intros st Hinv;
    try exact Hinv;
    try (simpl; eapply inv_ext; [| | |exact Hinv]; reflexivity).
  - unfold bind. specialize (IHm st Hinv).
    destruct (m st) as [a s1|e s1]; [apply IHk, IHm | exact IHm].
  - unfold line, check_page, bind, get, emit, modify.
    destruct (Nat.eqb (page st) 0); [exact Hinv | apply inv_emit, Hinv].
  - unfold rect, check_page, bind, get, emit, modify.
    destruct (Nat.eqb (page st) 0); [exact Hinv | apply inv_emit, Hinv].
  - destruct (Nat.eq_dec (page st) 0) as [E|E].
    + destruct (cell_closed geo w h txt border l a fill st E) as (msg & R).
      rewrite R. exact Hinv.
    + rewrite cell_ok by lia. apply inv_after_cell, Hinv.
  - destruct (Nat.eq_dec (page st) 0) as [E|E].
    + destruct (multi_cell_closed geo line_count w h txt fill st E) as (msg & R).
      rewrite R. exact Hinv.
    + destruct (no_room (cell_width geo w st) txt) eqn:Hroom.
      * rewrite multi_cell_no_room; [exact Hinv | lia | exact Hroom].
      * rewrite multi_cell_ok; [apply inv_after_multi_cell, Hinv | lia | exact Hroom].
  - rewrite add_page_ok. apply inv_after_add_page, Hinv.
Qed.

Lemma inv_new : chrome_inv (Surface.new geo).
Proof.
  unfold Spec.chrome_inv, Surface.new. cbn [page canvas section has_mark existsb].
  split; [reflexivity|]. split; intros p; bool_lia.
Qed.

(** [output] draws the footer of the last page and hands over the
    canvas. *)
Lemma output_ok st :
  exists st',
    output geo st
    = Ok (mkDocument (page (if Nat.eqb (page st) 0 then after_add_page st else st))
            (canvas (if Nat.eqb (page st) 0 then after_add_page st else st)
             ++ footer_mark geo (if Nat.eqb (page st) 0 then after_add_page st else st)))
         st' /\
    page st' = page (if Nat.eqb (page st) 0 then after_add_page st else st).
Proof.
  destruct st as [pg x0 y0 lh g au tr sec cv].
  unfold output, close. unfold bind at 1, get. unfold bind at 1.
  destruct pg as [|[|pg]].
  - cbn [page Nat.eqb]. fold (add_page geo). rewrite add_page_ok.
    unfold Spec.after_add_page, footer_mark, header_mark, footer. mrun.
    rewrite !app_nil_r. eexists. split; reflexivity.
  - unfold footer_mark, footer. mrun. rewrite !app_nil_r.
    eexists. split; reflexivity.
  - unfold footer_mark, footer, hook_cell. mrun. rewrite andb_false_r. mrun.
    eexists. split; reflexivity.
Qed.

Lemma last_footer_header p st : has_mark Header p (footer_mark geo st) = false.
Proof.
  unfold footer_mark, has_mark. destruct (Nat.leb (page st) 1); reflexivity.
Qed.

Lemma last_footer p st :
  has_mark Footer p (footer_mark geo st)
  = negb (Nat.leb (page st) 1) && Nat.eqb p (page st).
Proof.
  unfold footer_mark, has_mark. destruct (Nat.leb (page st) 1);
    cbn [existsb origin_eqb e_origin e_page andb orb negb]; bool_lia.
Qed.

(** C2: whatever a program draws through the renderer on a new
    document, the document that [output] produces has at least one page,
    no header and no footer on page 1, and both on every later page. *)
Theorem chrome_on_every_page_but_the_cover A (m : M pdf A) doc st' :
  client geo line_count A m ->
  bind m (fun _ => output geo) (Surface.new geo) = Ok doc st' ->
  (1 <= doc_pages doc)%nat /\
  forall p, (1 <= p <= doc_pages doc)%nat ->
    has_mark Header p (doc_content doc) = negb (Nat.eqb p 1) /\
    has_mark Footer p (doc_content doc) = negb (Nat.eqb p 1).
Proof.
  intros Hm Hrun.
  pose proof (client_inv A m Hm _ inv_new) as Hinv.
  unfold bind in Hrun. destruct (m (Surface.new geo)) as [a s1|e s1];
    [|discriminate].
  cbn [final] in Hinv.
  destruct (output_ok s1) as (sf & Hout & _). rewrite Hout in Hrun.
  injection Hrun as <- _.
  set (s2 := if Nat.eqb (page s1) 0 then after_add_page s1 else s1).
  assert (Hinv2 : chrome_inv s2).
  { unfold s2. destruct (Nat.eqb (page s1) 0);
      [apply inv_after_add_page|]; exact Hinv. }
  assert (Hp2 : (1 <= page s2)%nat).
  { unfold s2. destruct (Nat.eqb_spec (page s1) 0); simpl; lia. }
  destruct Hinv2 as (_ & Hh & Hf).
  cbn [doc_pages doc_content]. split; [exact Hp2|]. intros p Hp. split.
  - rewrite has_mark_app, Hh, last_footer_header. bool_lia.
  - rewrite has_mark_app, Hf, last_footer. bool_lia.
Qed.

End Chrome.
End ChromeFacts.

(** ** The document of the script *)

Module DocumentFacts.

Import Surface SloozePDF Spec SurfaceFacts RendererFacts ChromeFacts.
Local Open Scope Q_scope.

Section Document.

Variable geo : geometry.
Variable string_width : font -> string -> Q.
Variable line_count : font -> Q -> string -> nat.

Local Abbreviation safe := (Spec.safe).
Local Abbreviation client := (Spec.client geo line_count).

(** *** Calls that return *)

Lemma safe_bind (m k : M pdf unit) : safe m -> safe k -> safe (m ;; k).
Proof.
  intros Hm Hk st Hp Hs. destruct (Hm st Hp Hs) as (s1 & R1 & P1 & S1).
  destruct (Hk s1 P1 S1) as (s2 & R2 & P2 & S2).
  exists s2. rewrite (bind_eq _ _ _ _ _ R1). auto.
Qed.

Lemma safe_gets {A} (f : pdf -> A) (k : A -> M pdf unit) :
  (forall a, safe (k a)) -> safe (bind (gets f) k).
Proof. intros Hk st Hp Hs. exact (Hk (f st) st Hp Hs). Qed.

Lemma safe_modify (f : pdf -> pdf) :
  (forall st, page (f st) = page st) -> (forall st, section (f st) = section st) ->
  safe (modify f).
Proof.
  intros Hpg Hsec st Hp Hs. exists (f st).
  rewrite Hpg, Hsec. auto.
Qed.

Lemma safe_ret : safe (ret tt).
Proof. intros st Hp Hs. exists st. auto. Qed.

Lemma safe_cell w h txt border l a fill : safe (cell geo w h txt border l a fill).
Proof.
  intros st Hp Hs. eexists. split; [apply cell_ok, Hp|].
  split; [apply after_cell_open, Hp | apply after_cell_section, Hs].
Qed.

Lemma safe_line x1 y1 x2 y2 : safe (line x1 y1 x2 y2).
Proof. intros st Hp Hs. eexists. split; [apply line_ok, Hp | auto]. Qed.

Lemma safe_rect vx vy w h s : safe (rect vx vy w h s).
Proof. intros st Hp Hs. eexists. split; [apply rect_ok, Hp | auto]. Qed.

Lemma safe_add_page : safe (add_page geo).
Proof.
  intros st Hp Hs. eexists. split; [apply add_page_ok|].
  split; [simpl; lia | reflexivity].
Qed.

Lemma safe_for_each {A} (l : list A) (body : A -> M pdf unit) :
  (forall a, safe (body a)) -> safe (for_each l body).
Proof.
  intros Hb. induction l as [|a l IH]; [apply safe_ret|].
  simpl. apply safe_bind; [apply Hb | exact IH].
Qed.

Lemma safe_index {A} (l : list A) i a (k : A -> M pdf unit) :
  nth_error l i = Some a -> safe (k a) -> safe (bind (index l i) k).
Proof.
  intros Hn Hk st Hp Hs. unfold bind, index. rewrite Hn. exact (Hk st Hp Hs).
Qed.

Ltac safe_step :=
  lazymatch goal with
  | |- Spec.safe (bind get_y _) => apply safe_gets; intros ?
  | |- Spec.safe (bind page_no _) => apply safe_gets; intros ?
  | |- Spec.safe (bind (get_string_width _ _) _) => apply safe_gets; intros ?
  | |- Spec.safe (bind _ _) => apply safe_bind
  | |- Spec.safe (cell _ _ _ _ _ _ _ _) => apply safe_cell
  | |- Spec.safe (line _ _ _ _) => apply safe_line
  | |- Spec.safe (rect _ _ _ _ _) => apply safe_rect
  | |- Spec.safe (add_page _) => apply safe_add_page
  | |- Spec.safe (ret tt) => apply safe_ret
  | |- Spec.safe (for_each _ _) => apply safe_for_each; intros ?
  | |- Spec.safe (set_font _ _ _) => apply safe_modify; reflexivity
  | |- Spec.safe (set_text_color _ _ _) => apply safe_modify; reflexivity
  | |- Spec.safe (set_draw_color _ _ _) => apply safe_modify; reflexivity
  | |- Spec.safe (set_fill_color _ _ _) => apply safe_modify; reflexivity
  | |- Spec.safe (set_line_width _) => apply safe_modify; reflexivity
  | |- Spec.safe (set_auto_page_break _ _ _) => apply safe_modify; reflexivity
  | |- Spec.safe (set_y _ _) => apply safe_modify; reflexivity
  | |- Spec.safe (set_x _ _) => apply safe_modify; reflexivity
  | |- Spec.safe (ln _ _) => apply safe_modify; reflexivity
  end.

Lemma safe_set_xy vx vy : safe (set_xy geo vx vy).
Proof. unfold set_xy. repeat safe_step. Qed.

Lemma safe_chapter_title title level : safe (chapter_title geo title level).
Proof.
  unfold chapter_title. destruct (level =? 1)%Z; [|destruct (level =? 2)%Z];
    repeat safe_step.
Qed.

Ltac doc_step :=
  lazymatch goal with
  | |- Spec.safe (chapter_title _ _ _) => apply safe_chapter_title
  | |- Spec.safe (set_xy _ _ _) => apply safe_set_xy
  | |- Spec.safe (let '(_, _) := ?a in _) => destruct a
  | |- Spec.safe (if ?b then _ else _) => destruct b
  | |- _ => safe_step
  end.

(** The cover and the table of contents are drawn with cells, lines and
    rectangles only: they return on every page. *)
Lemma safe_cover_rest st :
  exists st',
    Script.cover_static geo st = Ok tt st' /\ (0 < page st')%nat /\ section st' = Body.
Proof.
  unfold Script.cover_static. rewrite (bind_eq _ _ _ _ _ (add_page_ok geo st)).
  match goal with
  | |- exists st', ?m _ = _ /\ _ => assert (Hm : Spec.safe m) by repeat doc_step
  end.
  apply Hm; [simpl; lia | reflexivity].
Qed.

Lemma safe_table_of_contents : safe (Script.table_of_contents geo).
Proof. unfold Script.table_of_contents. repeat doc_step. Qed.

(** *** Calls that stop *)

Lemma may_stop_of_safe (m : M pdf unit) : safe m -> may_stop m.
Proof. intros Hm st Hp Hs. left. exact (Hm st Hp Hs). Qed.

Lemma stops_first (m k : M pdf unit) : stops m -> stops (m ;; k).
Proof.
  intros Hm st Hp Hs. destruct (Hm st Hp Hs) as (s1 & R1).
  exists s1. apply bind_raise_eq. exact R1.
Qed.

Lemma stops_later (m k : M pdf unit) : may_stop m -> stops k -> stops (m ;; k).
Proof.
  intros Hm Hk st Hp Hs. destruct (Hm st Hp Hs) as [(s1 & R1 & P1 & S1)|(s1 & R1)].
  - destruct (Hk s1 P1 S1) as (s2 & R2). exists s2.
    rewrite (bind_eq _ _ _ _ _ R1). exact R2.
  - exists s1. apply bind_raise_eq. exact R1.
Qed.

(** A paragraph of body text is drawn, or finds no room. *)
Lemma may_stop_chapter_body body : may_stop (chapter_body geo line_count body).
Proof.
  intros st Hp Hs. unfold chapter_body.
  do 2 (erewrite bind_eq by reflexivity).
  match goal with
  | |- context [bind (multi_cell _ _ ?w ?h ?t ?f) _ ?s] =>
      assert (P0 : (0 < page s)%nat) by exact Hp;
      assert (S0 : section s = Body) by exact Hs;
      destruct (no_room (cell_width geo w s) t) eqn:Hroom;
      [ right; eexists; apply bind_raise_eq, multi_cell_no_room; assumption
      | left; eexists; split;
        [ rewrite (bind_eq _ _ _ _ _ (multi_cell_ok geo line_count w h t f s P0 Hroom));
          reflexivity
        | split; unfold ln, modify, with_x, with_y; cbn [page section];
          [ apply after_multi_cell_open, P0
          | apply after_multi_cell_section, S0 ] ] ]
  end.
Qed.

(** At or behind the right margin no text with ink has room, whatever
    the widths of the label and the glyph. *)
Lemma no_fit_at_margin bold_prefix item st :
  (forall f s, 0 <= string_width f s) ->
  page_w geo - r_margin geo <= x st ->
  has_ink (item_text bold_prefix item) = true ->
  item_fits geo string_width bold_prefix item st = false.
Proof.
  intros Hw Hx Hink. unfold item_fits, no_room. rewrite Hink.
  cbn [andb]. apply negb_false_iff, Qle_bool_iff.
  unfold item_room, c_margin.
  destruct (bold_prefix && Py.contains ":" item).
  - destruct (Py.partition ":" item) as [[label rest]|]; [|lra].
    unfold label_width.
    pose proof (Hw (mkFont "Arial" Bold 10) (label ++ ": ")%string) as H0.
    destruct (Qeq_bool (string_width (mkFont "Arial" Bold 10) (label ++ ": ")) 0);
      lra.
  - lra.
Qed.

(** A list of two items or more stops at its second item when that item
    has text to draw: the paragraph of the first item leaves the cursor
    at the right margin, and the next paragraph starts behind it. *)
Lemma bullet_list_stops i1 i2 items bold_prefix :
  (forall f s, 0 <= string_width f s) ->
  has_ink (item_text bold_prefix i2) = true ->
  stops (bullet_list geo string_width line_count (i1 :: i2 :: items) bold_prefix).
Proof.
  intros Hw Hink st Hp Hs. unfold bullet_list.
  do 2 (erewrite bind_eq by reflexivity).
  match goal with
  | |- context [bind (for_each _ ?body) ?k ?s] =>
      assert (P0 : (0 < page s)%nat) by exact Hp;
      assert (S0 : section s = Body) by exact Hs;
      assert (F0 : cur_font (gs s) = list_font) by reflexivity;
      generalize dependent s; intros s0 P0 S0 F0
  end.
  change (exists st',
             bind (bind (bullet_item geo string_width line_count bold_prefix i1)
                        (fun _ =>
                           bind (bullet_item geo string_width line_count bold_prefix i2)
                                (fun _ =>
                                   for_each items
                                     (bullet_item geo string_width line_count
                                        bold_prefix))))
                  (fun _ => ln geo (Some 2)) s0
             = Raise no_space st').
  destruct (bullet_item_cases geo string_width line_count bold_prefix i1 s0 P0 S0 F0)
    as [(_ & s1 & added & R1 & (P1 & S1 & _) & F1 & _ & _ & X1)|(_ & s1 & R1)].
  - pose proof (no_fit_at_margin bold_prefix i2 s1 Hw X1 Hink) as Hno.
    destruct (bullet_item_cases geo string_width line_count bold_prefix i2 s1 P1 S1 F1)
      as [(Hfit & _)|(_ & s2 & R2)]; [congruence|].
    exists s2. apply bind_raise_eq. rewrite (bind_eq _ _ _ _ _ R1).
    apply bind_raise_eq. exact R2.
  - exists s1. do 2 apply bind_raise_eq. exact R1.
Qed.

(** The first section of the document stops in its list of
    deliverables. *)
Lemma section_1_stops :
  (forall f s, 0 <= string_width f s) ->
  stops (Script.section_1 geo string_width line_count).
Proof.
  intros Hw. unfold Script.section_1.
  apply stops_later; [apply may_stop_of_safe, safe_add_page|].
  apply stops_later; [apply may_stop_of_safe, safe_chapter_title|].
  apply stops_later; [apply may_stop_chapter_body|].
  apply stops_later; [apply may_stop_of_safe, safe_chapter_title|].
  apply stops_first. apply bullet_list_stops; [exact Hw | reflexivity].
Qed.

(** The drawing of the whole document stops there, from a new document
    and for any date line. *)
Lemma rendering_stops date :
  (forall f s, 0 <= string_width f s) ->
  exists st,
    rendering geo string_width line_count date (Surface.new geo)
    = Raise no_space st.
Proof.
  intros Hw. unfold rendering. erewrite bind_eq by reflexivity.
  destruct (safe_cover_rest (with_break true (page_h geo - 20) (Surface.new geo)))
    as (s1 & R1 & P1 & S1).
  rewrite (bind_eq _ _ _ _ _ R1).
  match goal with
  | |- exists st, ?m _ = _ =>
      assert (Hm : Spec.stops m)
        by (apply stops_later; [apply may_stop_of_safe, safe_cell|];
            apply stops_later; [apply may_stop_of_safe, safe_table_of_contents|];
            apply stops_first, section_1_stops, Hw)
  end.
  exact (Hm s1 P1 S1).
Qed.

(** *** Programs of the renderer *)

Lemma client_for_each {A} (l : list A) (body : A -> M pdf unit) :
  (forall a, client unit (body a)) -> client unit (for_each l body).
Proof.
  intros Hb. induction l as [|a l IH]; [apply client_ret|].
  simpl. apply client_bind; [apply Hb | intros _; exact IH].
Qed.

Lemma client_index {A} (l : list A) i : client A (index l i).
Proof.
  unfold index. destruct (nth_error l i); [apply client_ret | apply client_raise].
Qed.

Ltac client_step :=
  lazymatch goal with
  | |- Spec.client _ _ _ (bind _ _) => apply client_bind; [|intros ?]
  | |- Spec.client _ _ _ (ret _) => apply client_ret
  | |- Spec.client _ _ _ get_y => apply client_gets
  | |- Spec.client _ _ _ page_no => apply client_gets
  | |- Spec.client _ _ _ (get_string_width _ _) => apply client_gets
  | |- Spec.client _ _ _ (index _ _) => apply client_index
  | |- Spec.client _ _ _ (for_each _ _) => apply client_for_each; intros ?
  | |- Spec.client _ _ _ (set_font _ _ _) => apply client_set_font
  | |- Spec.client _ _ _ (set_text_color _ _ _) => apply client_set_text_color
  | |- Spec.client _ _ _ (set_draw_color _ _ _) => apply client_set_draw_color
  | |- Spec.client _ _ _ (set_fill_color _ _ _) => apply client_set_fill_color
  | |- Spec.client _ _ _ (set_line_width _) => apply client_set_line_width
  | |- Spec.client _ _ _ (set_auto_page_break _ _ _) =>
      apply client_set_auto_page_break
  | |- Spec.client _ _ _ (set_y _ _) => apply client_set_y
  | |- Spec.client _ _ _ (set_x _ _) => apply client_set_x
  | |- Spec.client _ _ _ (ln _ _) => apply client_ln
  | |- Spec.client _ _ _ (line _ _ _ _) => apply client_line
  | |- Spec.client _ _ _ (rect _ _ _ _ _) => apply client_rect
  | |- Spec.client _ _ _ (cell _ _ _ _ _ _ _ _) => apply client_cell
  | |- Spec.client _ _ _ (multi_cell _ _ _ _ _ _) => apply client_multi_cell
  | |- Spec.client _ _ _ (add_page _) => apply client_add_page
  | |- Spec.client _ _ _ (let '(_, _) := ?a in _) => destruct a
  | |- Spec.client _ _ _ (if ?b then _ else _) => destruct b
  end.

Lemma client_set_xy vx vy : client unit (set_xy geo vx vy).
Proof. unfold set_xy. repeat client_step. Qed.

Lemma client_chapter_title title level : client unit (chapter_title geo title level).
Proof. unfold chapter_title. repeat client_step. Qed.

Lemma client_chapter_body body : client unit (chapter_body geo line_count body).
Proof. unfold chapter_body. repeat client_step. Qed.

Lemma client_bullet_list items bold_prefix :
  client unit (bullet_list geo string_width line_count items bold_prefix).
Proof. unfold bullet_list, bullet_item. repeat client_step. Qed.

Lemma client_numbered_list items : client unit (numbered_list geo line_count items).
Proof. unfold numbered_list. repeat client_step. Qed.

Lemma client_key_finding_box title content :
  client unit (key_finding_box geo line_count title content).
Proof.
  unfold key_finding_box. repeat first [client_step | apply client_set_xy].
Qed.

Lemma client_info_box title items :
  client unit (info_box geo string_width line_count title items).
Proof.
  unfold info_box. repeat first [client_step | apply client_bullet_list].
Qed.

Lemma client_create_table headers data col_widths :
  client unit (create_table geo headers data col_widths).
Proof. unfold create_table. repeat client_step. Qed.

Ltac client_doc_step :=
  lazymatch goal with
  | |- Spec.client _ _ _ (chapter_title _ _ _) => apply client_chapter_title
  | |- Spec.client _ _ _ (chapter_body _ _ _) => apply client_chapter_body
  | |- Spec.client _ _ _ (bullet_list _ _ _ _ _) => apply client_bullet_list
  | |- Spec.client _ _ _ (numbered_list _ _ _) => apply client_numbered_list
  | |- Spec.client _ _ _ (key_finding_box _ _ _ _) => apply client_key_finding_box
  | |- Spec.client _ _ _ (info_box _ _ _ _ _) => apply client_info_box
  | |- Spec.client _ _ _ (create_table _ _ _ _) => apply client_create_table
  | |- Spec.client _ _ _ (set_xy _ _ _) => apply client_set_xy
  | |- _ => client_step
  end.

(** The drawing of the whole document is a program of the renderer. *)
Lemma client_rendering date :
  client unit (rendering geo string_width line_count date).
Proof.
  unfold rendering, Script.cover_static, Script.table_of_contents,
    Script.section_1, Script.section_2, Script.section_3, Script.section_4,
    Script.section_5, Script.section_6, Script.section_7, Script.section_8,
    Script.section_9.
  repeat client_doc_step.
Qed.

End Document.
End DocumentFacts.

(** ** The script from its first statement to its last *)

Module ScriptFacts.

Import Surface Spec Script SurfaceFacts RendererFacts ChromeFacts DocumentFacts.
Local Open Scope Q_scope.

Lemma bind_assoc_at {S A B C} (m : M S A) (k : A -> M S B) (k' : B -> M S C) st :
  bind (bind m k) k' st = bind m (fun a => bind (k a) k') st.
Proof. unfold bind. destruct (m st); reflexivity. Qed.

Lemma on_pdf_eq {A} (m : M pdf A) w p a p' :
  m p = Ok a p' -> on_pdf m (w, p) = Ok a (w, p').
Proof. unfold on_pdf. simpl. intros ->. reflexivity. Qed.

Lemma on_pdf_raise_eq {A} (m : M pdf A) w p e p' :
  m p = Raise e p' -> on_pdf m (w, p) = Raise e (w, p').
Proof. unfold on_pdf. simpl. intros ->. reflexivity. Qed.

Section Run.

Variable geo : geometry.
Variable string_width : font -> string -> Q.
Variable line_count : font -> Q -> string -> nat.

Local Abbreviation create_slooze_documentation :=
  (Script.create_slooze_documentation geo string_width line_count).
Local Abbreviation main := (Script.main geo string_width line_count).
Local Abbreviation run := (Script.run geo string_width line_count).

(** With glyph widths that are not negative,
    [create_slooze_documentation] reads the clock once, for the date
    line of the cover, draws the cover and the table of contents, and
    stops in the first section with the exception of [multi_cell]:
    [output] is not reached. *)
Lemma create_stops site clk tk args dir wr out err files :
  (forall f s, 0 <= string_width f s) ->
  create_slooze_documentation (mkWorld site clk tk args dir wr out err files)
  = Raise no_space (mkWorld site clk (S tk) args dir wr out err files).
Proof.
  intros Hw.
  destruct (safe_cover_rest geo (with_break true (page_h geo - 20) (Surface.new geo)))
    as (s1 & R1 & P1 & S1).
  pose proof (cell_ok geo 180 (Some 8) (strftime_B_Y (clk tk)) false 1 AlignC
                false s1 P1) as R2.
  pose proof (after_cell_open geo 180 (Some 8) (strftime_B_Y (clk tk)) false 1
                AlignC false s1 P1) as P2.
  pose proof (after_cell_section geo 180 (Some 8) (strftime_B_Y (clk tk)) false 1
                AlignC false s1 S1) as S2.
  destruct (safe_table_of_contents geo _ P2 S2) as (s3 & R3 & P3 & S3).
  destruct (section_1_stops geo string_width line_count Hw s3 P3 S3) as (s4 & R4).
  unfold Script.create_slooze_documentation, with_local, cover.
  repeat first
    [ rewrite bind_assoc_at
    | erewrite bind_eq by (apply on_pdf_eq; eassumption)
    | erewrite bind_raise_eq by (apply on_pdf_raise_eq; eassumption)
    | erewrite bind_eq by reflexivity ].
  reflexivity.
Qed.

(** Without the package the module stops at its first statement. *)
Lemma main_without_fpdf w :
  importable w "fpdf" = false -> main w = Raise (Py.ImportError "fpdf") w.
Proof.
  intros H. unfold Script.main, bind at 1, import_module. rewrite H. reflexivity.
Qed.

Lemma run_without_fpdf w :
  importable w "fpdf" = false ->
  run w = mkResult 1 (with_stderr (stderr w ++ [traceback (Py.ImportError "fpdf")]) w).
Proof. intros H. unfold Script.run. rewrite main_without_fpdf by exact H. reflexivity. Qed.

(** With the package the module prints its banner, passes the guarded
    import and stops in [create_slooze_documentation]. *)
Lemma run_with_fpdf site clk tk args dir wr out err files :
  (forall f s, 0 <= string_width f s) ->
  importable (mkWorld site clk tk args dir wr out err files) "fpdf" = true ->
  run (mkWorld site clk tk args dir wr out err files)
  = mkResult 1
      (mkWorld site clk (S tk) args dir wr (out ++ banner)
               (err ++ [traceback no_space]) files).
Proof.
  intros Hw Himp.
  pose proof (create_stops site clk tk args dir wr (out ++ banner) err files Hw)
    as Hcreate.
  assert (Hfpdf : forall out',
             import_module "fpdf" (mkWorld site clk tk args dir wr out' err files)
             = Ok tt (mkWorld site clk tk args dir wr out' err files)).
  { intros out'. unfold import_module, importable in *.
    cbn [site_packages] in *. rewrite Himp. reflexivity. }
  unfold Script.run, Script.main.
  erewrite bind_eq by apply Hfpdf.
  do 5 (erewrite bind_eq by reflexivity).
  cbv beta iota delta [with_stdout site_packages clock ticks argv cwd writable
                       stdout stderr written].
  erewrite bind_eq; cycle 1.
  { unfold try_except. rewrite Hfpdf. reflexivity. }
  rewrite <- !app_assoc.
  erewrite bind_raise_eq by exact Hcreate.
  reflexivity.
Qed.

(** C8, at every installation with the package, every command line and
    every working directory, for glyph widths that are not negative: the
    run ends with status 1 and writes no file, under the fixed name or
    any other. It prints the banner, reads the clock once for the cover,
    and ends with the traceback of the exception that [multi_cell]
    raises at the second item of the first bullet list, before [output]
    is reached. *)
Theorem run_stops_before_the_file_is_written
    site clk tk args dir wr out err files :
  (forall f s, 0 <= string_width f s) ->
  importable (mkWorld site clk tk args dir wr out err files) "fpdf" = true ->
  status (run (mkWorld site clk tk args dir wr out err files)) = 1%Z /\
  written (after (run (mkWorld site clk tk args dir wr out err files))) = files /\
  stdout (after (run (mkWorld site clk tk args dir wr out err files)))
  = out ++ banner /\
  stderr (after (run (mkWorld site clk tk args dir wr out err files)))
  = err ++ ["Traceback (most recent call last): FPDFException: Not enough horizontal space to render a single character"] /\
  ticks (after (run (mkWorld site clk tk args dir wr out err files))) = S tk.
Proof.
  intros Hw Himp. rewrite (run_with_fpdf _ _ _ _ _ _ _ _ _ Hw Himp).
  repeat split; reflexivity.
Qed.

End Run.

(** C1, at an installation without the package: the run ends with
    status 1 and a traceback on the error stream; nothing is printed to
    standard output, neither the banner nor the two lines of the guarded
    import, and nothing is written. *)
Theorem missing_package_is_not_reported :
  status (Sample.run Sample.bare) = 1%Z /\
  stdout (after (Sample.run Sample.bare)) = [] /\
  stderr (after (Sample.run Sample.bare))
  = ["Traceback (most recent call last): ModuleNotFoundError: No module named 'fpdf'"] /\
  written (after (Sample.run Sample.bare)) = [].
Proof.
  rewrite run_without_fpdf by reflexivity.
  repeat split; reflexivity.
Qed.

(** Without the package a run prints nothing at all: the module never
    gets to the guarded import and its two lines. *)
Lemma remediation_is_never_printed geo string_width line_count w :
  importable w "fpdf" = false ->
  stdout (after (Script.run geo string_width line_count w)) = stdout w.
Proof. intros H. rewrite run_without_fpdf by exact H. reflexivity. Qed.

End ScriptFacts.

(** ** The statements at sample inputs *)

Module Instances.

Import Surface SloozePDF Spec Script.
Local Open Scope Q_scope.

Lemma first_page_open : (0 < page Sample.first_page)%nat.
Proof. simpl. lia. Defined.

Lemma first_page_body : section Sample.first_page = Body.
Proof. reflexivity. Defined.

(** C2 on a document of two pages and a title. *)
Lemma chrome_on_every_page_but_the_cover_witness :
  exists doc st',
    bind (add_page a4 ;; add_page a4 ;; chapter_title a4 "1. Executive Summary" 1)
         (fun _ => output a4) (Surface.new a4) = Ok doc st' /\
    (1 <= doc_pages doc)%nat /\
    forall p, (1 <= p <= doc_pages doc)%nat ->
      has_mark Header p (doc_content doc) = negb (Nat.eqb p 1) /\
      has_mark Footer p (doc_content doc) = negb (Nat.eqb p 1).
Proof.
  eexists. eexists. split; [vm_compute; reflexivity|].
  eapply (ChromeFacts.chrome_on_every_page_but_the_cover
            a4 Sample.line_count unit
            (add_page a4 ;; add_page a4 ;; chapter_title a4 "1. Executive Summary" 1)).
  - apply client_bind; [apply client_add_page | intros _].
    apply client_bind; [apply client_add_page | intros _].
    apply DocumentFacts.client_chapter_title.
  - vm_compute. reflexivity.
Defined.

(** C3 as amended, on a table of two columns and one row. *)
Lemma create_table_default_widths_witness :
  (0 < page Sample.first_page)%nat /\
  section Sample.first_page = Body /\
  Forall (fun r => length r <= length ["Metric"; "Value"])%nat
         [row ["Unique Products"; "7,658"]] /\
  default_col_widths ["Metric"; "Value"] = repeat 40 (length ["Metric"; "Value"]) /\
  exists st' added,
    create_table a4 ["Metric"; "Value"] [row ["Unique Products"; "7,658"]] None
                 Sample.first_page = Ok tt st' /\
    body_of (canvas st') = body_of (canvas Sample.first_page) ++ added /\
    body_cells added
    = map (fun c => (c, 40)) ["Metric"; "Value"]
      ++ flat_map (fun r => map (fun c => (Py.str c, 40)) r)
                  [row ["Unique Products"; "7,658"]].
Proof.
  split; [exact first_page_open|]. split; [exact first_page_body|].
  assert (H : Forall (fun r : list Py.value => length r <= length ["Metric"; "Value"])%nat
                     [row ["Unique Products"; "7,658"]]).
  { apply Forall_cons; [simpl; lia | apply Forall_nil]. }
  split; [exact H|].
  exact (RendererFacts.create_table_default_widths a4 ["Metric"; "Value"]
           [row ["Unique Products"; "7,658"]] Sample.first_page
           first_page_open first_page_body H).
Defined.

(** C3 as stated fails: no content width makes the default widths of
    both a one-column and a two-column table equal shares of it. *)
Lemma default_widths_are_not_equal_shares :
  ~ exists geo,
      Forall2 Qeq (default_col_widths ["Metric"]) (equal_share geo ["Metric"]) /\
      Forall2 Qeq (default_col_widths ["Metric"; "Value"])
                  (equal_share geo ["Metric"; "Value"]).
Proof.
  intros (geo & H1 & H2).
  unfold default_col_widths, equal_share in *. simpl in *.
  inversion H1 as [|? ? ? ? E1 _]; subst. clear H1.
  inversion H2 as [|? ? ? ? E2 _]; subst. clear H2.
  revert E1 E2. generalize (content_width geo). intros W E1 E2.
  assert (W1 : W == 40) by (rewrite E1; field).
  assert (W2 : W == 80) by (setoid_replace W with (2 * (W / 2)) by field;
                            rewrite <- E2; reflexivity).
  rewrite W1 in W2. discriminate.
Qed.

(** C5 on a title of level 1 at the top of the first page. *)
Lemma chapter_title_advance_witness :
  (0 < page Sample.first_page)%nat /\
  section Sample.first_page = Body /\
  exists st',
    chapter_title a4 "5. Key Results" 1 Sample.first_page = Ok tt st' /\
    y st' == title_top a4 1 Sample.first_page + title_advance 1 /\
    title_advance 3 < title_advance 2 < title_advance 1 /\
    map e_prim (filter is_body_rule (canvas st'))
    = map e_prim (filter is_body_rule (canvas Sample.first_page))
      ++ (if (1 =? 1)%Z
          then [Line 15 (title_top a4 1 Sample.first_page + 12) 195
                     (title_top a4 1 Sample.first_page + 12) (233, 69, 96)%Z (1 # 2)]
          else []).
Proof.
  split; [exact first_page_open|]. split; [exact first_page_body|].
  exact (RendererFacts.chapter_title_advance a4 "5. Key Results" 1
           Sample.first_page first_page_open first_page_body).
Defined.

Lemma first_page_room : t_margin a4 + 8 + 6 <= page_break_trigger Sample.first_page.
Proof. unfold Qle. simpl. lia. Defined.

Lemma one_item : (length ["Products: ~7,658 unique SKUs"] <= 1)%nat.
Proof. simpl. lia. Defined.

Lemma one_item_fits :
  Forall (fun item =>
            glyphs_fit Sample.string_width list_font
              (item_room a4 Sample.string_width true item Sample.first_page)
              (item_text true item) = true)
         ["Products: ~7,658 unique SKUs"].
Proof. apply Forall_cons; [vm_compute; reflexivity | apply Forall_nil]. Defined.

(** C6 on a list of one labelled item at the top of the first page. *)
Lemma bullet_list_weights_witness :
  (0 < page Sample.first_page)%nat /\
  section Sample.first_page = Body /\
  t_margin a4 + 8 + 6 <= page_break_trigger Sample.first_page /\
  (length ["Products: ~7,658 unique SKUs"] <= 1)%nat /\
  Forall (fun item =>
            glyphs_fit Sample.string_width list_font
              (item_room a4 Sample.string_width true item Sample.first_page)
              (item_text true item) = true)
         ["Products: ~7,658 unique SKUs"] /\
  exists st' added,
    bullet_list a4 Sample.string_width Sample.line_count
      ["Products: ~7,658 unique SKUs"] true Sample.first_page = Ok tt st' /\
    body_of (canvas st') = body_of (canvas Sample.first_page) ++ added /\
    body_runs added = flat_map (item_runs true) ["Products: ~7,658 unique SKUs"] /\
    labels_continue added = true.
Proof.
  split; [exact first_page_open|]. split; [exact first_page_body|].
  split; [exact first_page_room|]. split; [exact one_item|].
  split; [exact one_item_fits|].
  destruct (RendererFacts.bullet_list_weights a4 Sample.string_width
              Sample.line_count ["Products: ~7,658 unique SKUs"] true
              Sample.first_page first_page_open first_page_body first_page_room)
    as [Hruns Hret].
  specialize (Hret one_item one_item_fits).
  destruct (bullet_list a4 Sample.string_width Sample.line_count
              ["Products: ~7,658 unique SKUs"] true Sample.first_page)
    as [[] st'|e st'] eqn:E; [|discriminate Hret].
  destruct (Hruns st' eq_refl) as (added & H).
  exists st', added. split; [reflexivity | exact H].
Defined.

Lemma first_page_cursor : 0 <= y Sample.first_page.
Proof. unfold Qle. simpl. lia. Defined.

Lemma first_page_box_room : y Sample.first_page + 15 <= page_break_trigger Sample.first_page.
Proof. unfold Qle. simpl. lia. Defined.

(** C7 on a callout at the top of the first page. *)
Lemma key_finding_box_fixed_height_witness :
  (0 < page Sample.first_page)%nat /\
  section Sample.first_page = Body /\
  0 <= y Sample.first_page /\
  y Sample.first_page + 15 <= page_break_trigger Sample.first_page /\
  exists st',
    key_finding_box a4 Sample.line_count "Inventory Status"
      "All products are currently healthy." Sample.first_page = Ok tt st' /\
    y st' = y Sample.first_page + 28 /\
    map e_prim (body_of (canvas st'))
    = map e_prim (body_of (canvas Sample.first_page))
      ++ [Line 15 (y Sample.first_page) 15 (y Sample.first_page + 25)
               (233, 69, 96)%Z 1;
          Rect 17 (y Sample.first_page) 178 25 StyleF (250, 250, 250)%Z;
          Text 20 (y Sample.first_page + 3) (page_w a4 - r_margin a4 - 20) 6
               "Inventory Status" (mkFont "Arial" Bold 10) (233, 69, 96)%Z
               false None AlignL;
          Para 20 (y Sample.first_page + 10) 170 5
               "All products are currently healthy."
               (Nat.max 1 (Sample.line_count (mkFont "Arial" Regular 10) 170
                             "All products are currently healthy."))
               (mkFont "Arial" Regular 10) (51, 51, 51)%Z None].
Proof.
  split; [exact first_page_open|]. split; [exact first_page_body|].
  split; [exact first_page_cursor|]. split; [exact first_page_box_room|].
  exact (RendererFacts.key_finding_box_fixed_height a4 Sample.line_count
           "Inventory Status" "All products are currently healthy."
           Sample.first_page first_page_open first_page_body first_page_cursor
           first_page_box_room).
Defined.

Lemma sample_widths : forall f s, 0 <= Sample.string_width f s.
Proof.
  intros f s. unfold Sample.string_width.
  apply Qmult_le_0_compat; unfold Qle; simpl; lia.
Defined.

(** C8 with the package installed and the sample metrics. *)
Lemma run_stops_before_the_file_is_written_witness :
  (forall f s, 0 <= Sample.string_width f s) /\
  importable Sample.installed "fpdf" = true /\
  status (Sample.run Sample.installed) = 1%Z /\
  written (after (Sample.run Sample.installed)) = [] /\
  stdout (after (Sample.run Sample.installed)) = [] ++ banner /\
  stderr (after (Sample.run Sample.installed))
  = [] ++ ["Traceback (most recent call last): FPDFException: Not enough horizontal space to render a single character"] /\
  ticks (after (Sample.run Sample.installed)) = 1%nat.
Proof.
  split; [exact sample_widths|]. split; [reflexivity|].
  exact (ScriptFacts.run_stops_before_the_file_is_written
           a4 Sample.string_width Sample.line_count
           ["fpdf"] Sample.clock 0%nat ["generate_slooze_pdf.py"] "/home/analyst"
           (fun _ => true) [] [] [] sample_widths eq_refl).
Defined.

(** C9 as amended, on a table whose second row is too long. *)
Lemma create_table_completes_witness :
  (0 < page Sample.first_page)%nat /\
  (returned (create_table a4 ["Metric"; "Value"]
               [row ["Store Locations"; "79"]; row ["Vendors"; "128"; "active"]]
               (Some [80%Q; 80%Q]) Sample.first_page) = true <->
   (length ["Metric"; "Value"] <= length (widths_of ["Metric"; "Value"] (Some [80%Q; 80%Q])))%nat /\
   Forall (fun r => length r
                    <= length (widths_of ["Metric"; "Value"] (Some [80%Q; 80%Q])))%nat
          [row ["Store Locations"; "79"]; row ["Vendors"; "128"; "active"]]) /\
  returned (create_table a4 ["Metric"; "Value"]
              [row ["Store Locations"; "79"]; row ["Vendors"; "128"; "active"]]
              (Some [80%Q; 80%Q]) Sample.first_page) = false.
Proof.
  split; [exact first_page_open|].
  split; [|vm_compute; reflexivity].
  exact (proj1 (RendererFacts.create_table_completes a4 ["Metric"; "Value"]
                  [row ["Store Locations"; "79"]; row ["Vendors"; "128"; "active"]]
                  (Some [80%Q; 80%Q]) Sample.first_page first_page_open)).
Defined.

(** C9 as stated fails: with one width for two headers the header row
    raises although there is no data row at all. *)
Lemma short_widths_fail_in_the_header_row :
  ~ (returned (create_table a4 ["Metric"; "Value"] [] (Some [80%Q]) Sample.first_page)
     = true <->
     Forall (fun r : list Py.value => length r <= length [80%Q])%nat []).
Proof.
  intros [_ H]. specialize (H (Forall_nil _)). vm_compute in H. discriminate.
Qed.

Lemma two_separators : (1 < Py.count ":" "Date Range: 9:30 to 10:45")%nat.
Proof. simpl. lia. Defined.

Lemma remainder_fits :
  glyphs_fit Sample.string_width list_font
    (item_room a4 Sample.string_width true "Date Range: 9:30 to 10:45"
       Sample.first_page)
    (item_text true "Date Range: 9:30 to 10:45") = true.
Proof. vm_compute. reflexivity. Defined.

(** C10 on an item with three separators. *)
Lemma bullet_item_first_separator_witness :
  (0 < page Sample.first_page)%nat /\
  section Sample.first_page = Body /\
  (1 < Py.count ":" "Date Range: 9:30 to 10:45")%nat /\
  glyphs_fit Sample.string_width list_font
    (item_room a4 Sample.string_width true "Date Range: 9:30 to 10:45"
       Sample.first_page)
    (item_text true "Date Range: 9:30 to 10:45") = true /\
  exists label rest st' added,
    "Date Range: 9:30 to 10:45" = (label ++ ":" ++ rest)%string /\
    Py.contains ":" label = false /\
    Py.count ":" rest = (Py.count ":" "Date Range: 9:30 to 10:45" - 1)%nat /\
    Py.contains ":" rest = true /\
    bullet_item a4 Sample.string_width Sample.line_count true
      "Date Range: 9:30 to 10:45" Sample.first_page = Ok tt st' /\
    body_of (canvas st') = body_of (canvas Sample.first_page) ++ added /\
    body_runs added
    = [CellRun "" (style (cur_font (gs Sample.first_page)));
       CellRun bullet (style (cur_font (gs Sample.first_page)));
       CellRun (label ++ ":")%string Bold; ParaRun rest Regular].
Proof.
  split; [exact first_page_open|]. split; [exact first_page_body|].
  split; [exact two_separators|]. split; [exact remainder_fits|].
  exact (RendererFacts.bullet_item_first_separator a4 Sample.string_width
           Sample.line_count "Date Range: 9:30 to 10:45" Sample.first_page
           first_page_open first_page_body two_separators remainder_fits).
Defined.

End Instances.
